(** * robot_ai: the motor controller and the safety monitor

    A shallow embedding of [src/action/motor_controller.py] and
    [src/action/safety_monitor.py].  Python [int] is [Z], Python [float] is
    Rocq's binary64 [float], [Optional[_]] is [option], the dataclasses are
    records and the enums are inductive types.  The serial device is an
    oracle over which every statement quantifies. *)

From Stdlib Require Import ZArith List String Ascii Bool Lia.
From Stdlib Require Import Floats DecimalString.
Import ListNotations.

Local Open Scope string_scope.
Local Open Scope Z_scope.

(** ** Python idioms *)

Module Py.

(** [needle in hay] on [str]. *)
Fixpoint contains (needle hay : string) : bool :=
  if String.prefix needle hay then true
  else match hay with
       | EmptyString => false
       | String _ rest => contains needle rest
       end.

(** [response and token in response]: [None] and the empty string are false. *)
Definition acknowledged (token : string) (r : option string) : bool :=
  match r with
  | Some s => negb (String.eqb s "") && contains token s
  | None => false
  end.

(** [f"{n}"] for an [int]. *)
Definition str (n : Z) : string := NilZero.string_of_int (Z.to_int n).

(** [a or b] on [int]: [a] when it is nonzero, else [b]. *)
Definition or_int (a b : Z) : Z := if Z.eqb a 0 then b else a.

(** [a or b] where [a : Optional[int]]: [None] and [0] are both false. *)
Definition or_opt (a : option Z) (b : Z) : Z :=
  match a with
  | Some n => or_int n b
  | None => b
  end.

End Py.

(** ** [motor_controller.py] *)

Module Motor.

Inductive MotorDirection : Type :=
  | FORWARD | BACKWARD | TURN_LEFT | TURN_RIGHT | STOP.

(** The enum's [value]: the command line of each direction. *)
Definition value (d : MotorDirection) : string :=
  match d with
  | FORWARD => "MOVE_FORWARD"
  | BACKWARD => "MOVE_BACKWARD"
  | TURN_LEFT => "TURN_LEFT"
  | TURN_RIGHT => "TURN_RIGHT"
  | STOP => "STOP"
  end.

Record MotorState : Type := mkMotorState {
  direction : MotorDirection;
  speed : Z;
  is_moving : bool;
  last_command_time : float
}.

(** What one call of [_send_command] meets on the open connection: the write
    raises, its read finds no line before the timeout, or its read returns a
    stripped line.  The line is the oldest one in the port's buffer, so
    after a command written without reading it can be the answer to that
    earlier command. *)
Inductive Wire : Type :=
  | WriteError
  | Silent
  | Line (s : string).

(** The device as the calls see it: what the n-th call of [_send_command]
    meets, given its command text. *)
Definition Device : Type := nat -> string -> Wire.

Record MotorController : Type := mkMotorController {
  motor_state : MotorState;
  max_speed : Z;
  base_speed : Z;
  _is_emergency_stopped : bool;
  (** the module flag [SERIAL_AVAILABLE]; [false] is simulation mode *)
  SERIAL_AVAILABLE : bool;
  (** [serial_connection and serial_connection.is_open] *)
  connection_open : bool;
  (** lines written to the serial connection, oldest first *)
  written : list string;
  (** number of device exchanges attempted so far *)
  exchanges : nat
}.

Definition set_motor_state (ms : MotorState) (mc : MotorController) : MotorController :=
  mkMotorController ms (max_speed mc) (base_speed mc) (_is_emergency_stopped mc)
    (SERIAL_AVAILABLE mc) (connection_open mc) (written mc) (exchanges mc).

Definition set_latch (b : bool) (mc : MotorController) : MotorController :=
  mkMotorController (motor_state mc) (max_speed mc) (base_speed mc) b
    (SERIAL_AVAILABLE mc) (connection_open mc) (written mc) (exchanges mc).

(** One exchange on the open connection: [wrote] tells whether the line went out. *)
Definition exchange (wrote : bool) (command : string) (mc : MotorController) : MotorController :=
  mkMotorController (motor_state mc) (max_speed mc) (base_speed mc)
    (_is_emergency_stopped mc) (SERIAL_AVAILABLE mc) (connection_open mc)
    (if wrote then written mc ++ [command] else written mc) (S (exchanges mc)).

(** [MotorController.__init__] with the two values it reads from the
    configuration; [serial] is the module's [SERIAL_AVAILABLE]. *)
Definition init (serial : bool) (cfg_max_speed cfg_base_speed : Z) : MotorController :=
  mkMotorController (mkMotorState STOP 0 false 0%float)
    cfg_max_speed cfg_base_speed false serial false [] 0%nat.

(** The canned answers of simulation mode. *)
Definition simulation_response (command : string) (expect_response : bool) : string :=
  if expect_response then
    if Py.contains "PING" command then "PONG"
    else if Py.contains "MOVE" command || Py.contains "TURN" command
         then "ACTION:" ++ command ++ ":SPEED:50"
    else if Py.contains "STOP" command then "ACTION:STOP"
    else if Py.contains "SET_SPEED" command then "ACTION:SPEED_SET:50"
    else if Py.contains "STATUS" command
         then "STATUS:{" ++ String (ascii_of_nat 34) "speed" ++ String (ascii_of_nat 34) ":50,"
              ++ String (ascii_of_nat 34) "uptime" ++ String (ascii_of_nat 34) ":12345,"
              ++ String (ascii_of_nat 34) "free_memory" ++ String (ascii_of_nat 34) ":1500}"
    else "OK"
  else "OK".

(** [_send_command]: every exception of the body is caught and gives [None].
    What the call's read returns is the device's word for this call; the
    lines that stay unread in the port's buffer are followed in [Channel]. *)
Definition _send_command (dev : Device) (command : string) (expect_response : bool)
    (mc : MotorController) : option string * MotorController :=
  if negb (SERIAL_AVAILABLE mc) then
    (Some (simulation_response command expect_response), mc)
  else if negb (connection_open mc) then (None, mc)
  else
    match dev (exchanges mc) command with
    | WriteError => (None, exchange false command mc)
    | Silent => (None, exchange true command mc)
    | Line s =>
        (if expect_response then (if String.eqb s "" then None else Some s) else None,
         exchange true command mc)
    end.

(** Whether the line of the next [_send_command] reaches the wire. *)
Definition goes_out (dev : Device) (command : string) (mc : MotorController) : bool :=
  SERIAL_AVAILABLE mc && connection_open mc &&
  match dev (exchanges mc) command with
  | WriteError => false
  | _ => true
  end.

(** [speed or self.motor_state.speed or self.base_speed] *)
Definition effective_speed (speed : option Z) (mc : MotorController) : Z :=
  Py.or_opt speed (Py.or_int (Motor.speed (motor_state mc)) (base_speed mc)).

Definition set_speed_command (n : Z) : string := "SET_SPEED:" ++ Py.str n.

(** The shared body of [move_forward], [move_backward], [turn_left] and
    [turn_right]; they differ in the direction only.  [now] is the event
    loop's clock at the acknowledgement. *)
Definition move (d : MotorDirection) (dev : Device) (now : float)
    (speed : option Z) (mc : MotorController) : bool * MotorController :=
  if _is_emergency_stopped mc then (false, mc)
  else
    let eff := effective_speed speed mc in
    let mc1 :=
      if negb (Z.eqb eff (Motor.speed (motor_state mc))) then
        let '(_, mc') := _send_command dev (set_speed_command eff) false mc in
        set_motor_state
          (mkMotorState (direction (motor_state mc')) eff
             (is_moving (motor_state mc')) (last_command_time (motor_state mc'))) mc'
      else mc in
    let '(response, mc2) := _send_command dev (value d) true mc1 in
    if Py.acknowledged ("ACTION:" ++ value d) response then
      (true, set_motor_state (mkMotorState d (Motor.speed (motor_state mc2)) true now) mc2)
    else (false, mc2).

(** The controller after the speed step of a move, when the direction
    command is about to be sent. *)
Definition after_speed (dev : Device) (speed : option Z) (mc : MotorController)
    : MotorController :=
  let eff := effective_speed speed mc in
  if negb (Z.eqb eff (Motor.speed (motor_state mc))) then
    let mc' := snd (_send_command dev (set_speed_command eff) false mc) in
    set_motor_state
      (mkMotorState (direction (motor_state mc')) eff
         (is_moving (motor_state mc')) (last_command_time (motor_state mc'))) mc'
  else mc.

Definition move_forward := move FORWARD.
Definition move_backward := move BACKWARD.
Definition turn_left := move TURN_LEFT.
Definition turn_right := move TURN_RIGHT.

Definition stop (dev : Device) (now : float) (mc : MotorController)
    : bool * MotorController :=
  let '(response, mc1) := _send_command dev "STOP" true mc in
  if Py.acknowledged "ACTION:STOP" response then
    (true, set_motor_state (mkMotorState STOP (Motor.speed (motor_state mc1)) false now) mc1)
  else (false, mc1).

(** [set_speed]: the only path that clamps, to [0 .. max_speed]. *)
Definition set_speed (dev : Device) (speed : Z) (mc : MotorController)
    : bool * MotorController :=
  let clamped_speed := Z.max 0 (Z.min speed (max_speed mc)) in
  let '(response, mc1) := _send_command dev (set_speed_command clamped_speed) true mc in
  if Py.acknowledged "ACTION:SPEED_SET" response then
    (true, set_motor_state
             (mkMotorState (direction (motor_state mc1)) clamped_speed
                (is_moving (motor_state mc1)) (last_command_time (motor_state mc1))) mc1)
  else (false, mc1).

Definition emergency_stop (dev : Device) (now : float) (mc : MotorController)
    : bool * MotorController :=
  stop dev now (set_latch true mc).

Definition resume_from_emergency (mc : MotorController) : bool * MotorController :=
  (true, set_latch false mc).

Definition is_emergency_stopped (mc : MotorController) : bool :=
  _is_emergency_stopped mc.

End Motor.

(** ** [safety_monitor.py] *)

Module Safety.

Local Open Scope float_scope.
Local Open Scope list_scope.

Inductive SafetyLevel : Type :=
  | SAFE | WARNING | DANGER | EMERGENCY.

(** Position of a level in the order Safe < Warning < Danger < Emergency. *)
Definition rank (l : SafetyLevel) : nat :=
  match l with
  | SAFE => 0 | WARNING => 1 | DANGER => 2 | EMERGENCY => 3
  end.

Definition level_eqb (a b : SafetyLevel) : bool := Nat.eqb (rank a) (rank b).

Inductive SafetyAlert : Type :=
  | OBSTACLE_TOO_CLOSE
  | SENSOR_FAILURE
  | COMMUNICATION_LOST
  | MANUAL_EMERGENCY
  | SYSTEM_ERROR.

Definition alert_eqb (a b : SafetyAlert) : bool :=
  match a, b with
  | OBSTACLE_TOO_CLOSE, OBSTACLE_TOO_CLOSE
  | SENSOR_FAILURE, SENSOR_FAILURE
  | COMMUNICATION_LOST, COMMUNICATION_LOST
  | MANUAL_EMERGENCY, MANUAL_EMERGENCY
  | SYSTEM_ERROR, SYSTEM_ERROR => true
  | _, _ => false
  end.

(** [alert in alerts] *)
Definition active (alert : SafetyAlert) (alerts : list SafetyAlert) : bool :=
  existsb (alert_eqb alert) alerts.

(** [alerts.remove(alert)]: drops the first occurrence. *)
Fixpoint remove (alert : SafetyAlert) (alerts : list SafetyAlert) : list SafetyAlert :=
  match alerts with
  | [] => []
  | a :: rest => if alert_eqb alert a then rest else a :: remove alert rest
  end.

Record SafetyStatus : Type := mkSafetyStatus {
  level : SafetyLevel;
  active_alerts : list SafetyAlert;
  last_sensor_reading : float;
  emergency_stops_count : Z;
  is_monitoring_active : bool
}.

(** The monitor.  Its three component fields are references that are [None]
    until [set_robot_components]; the booleans say whether each is set.  The
    motor controller it refers to is the robot's one motor controller. *)
Record SafetyMonitor : Type := mkSafetyMonitor {
  min_obstacle_distance : float;
  emergency_stop_distance : float;
  motor_controller : bool;
  sensor_manager : bool;
  led_controller : bool;
  safety_status : SafetyStatus;
  monitoring_loops : Z;
  warnings_triggered : Z;
  emergency_stops : Z
}.

(** The monitor together with the motor controller object it shares with
    the rest of the program. *)
Record Robot : Type := mkRobot {
  monitor : SafetyMonitor;
  motor : Motor.MotorController
}.

Definition with_status (st : SafetyStatus) (m : SafetyMonitor) : SafetyMonitor :=
  mkSafetyMonitor (min_obstacle_distance m) (emergency_stop_distance m)
    (motor_controller m) (sensor_manager m) (led_controller m) st
    (monitoring_loops m) (warnings_triggered m) (emergency_stops m).

Definition with_level (l : SafetyLevel) (st : SafetyStatus) : SafetyStatus :=
  mkSafetyStatus l (active_alerts st) (last_sensor_reading st)
    (emergency_stops_count st) (is_monitoring_active st).

Definition with_alerts (al : list SafetyAlert) (st : SafetyStatus) : SafetyStatus :=
  mkSafetyStatus (level st) al (last_sensor_reading st)
    (emergency_stops_count st) (is_monitoring_active st).

Definition with_reading (t : float) (st : SafetyStatus) : SafetyStatus :=
  mkSafetyStatus (level st) (active_alerts st) t
    (emergency_stops_count st) (is_monitoring_active st).

Definition status (r : Robot) : SafetyStatus := safety_status (monitor r).

Definition latched (r : Robot) : bool := Motor.is_emergency_stopped (motor r).

(** [SafetyMonitor.__init__] with the thresholds read from the configuration. *)
Definition init (cfg_min_distance cfg_emergency_distance : float) : SafetyMonitor :=
  mkSafetyMonitor cfg_min_distance cfg_emergency_distance false false false
    (mkSafetyStatus SAFE [] 0 0%Z false) 0%Z 0%Z 0%Z.

Definition set_robot_components (has_motor has_sensor has_led : bool)
    (m : SafetyMonitor) : SafetyMonitor :=
  mkSafetyMonitor (min_obstacle_distance m) (emergency_stop_distance m)
    has_motor has_sensor has_led (safety_status m)
    (monitoring_loops m) (warnings_triggered m) (emergency_stops m).

(** [trigger_emergency_stop].  The LED pattern is started as a task of its
    own and no callback is ever registered in the program, so neither
    touches the monitor or the latch. *)
Definition trigger_emergency_stop (dev : Motor.Device) (now : float)
    (alert : SafetyAlert) (r : Robot) : bool * Robot :=
  let m := monitor r in
  let st := safety_status m in
  let alerts :=
    if active alert (active_alerts st) then active_alerts st
    else active_alerts st ++ [alert] in
  let st' :=
    mkSafetyStatus EMERGENCY alerts (last_sensor_reading st)
      (emergency_stops_count st + 1)%Z (is_monitoring_active st) in
  let m' :=
    mkSafetyMonitor (min_obstacle_distance m) (emergency_stop_distance m)
      (motor_controller m) (sensor_manager m) (led_controller m) st'
      (monitoring_loops m) (warnings_triggered m) (emergency_stops m + 1)%Z in
  let mc' :=
    if motor_controller m then snd (Motor.emergency_stop dev now (motor r))
    else motor r in
  (true, mkRobot m' mc').

Definition manual_emergency_stop (dev : Motor.Device) (now : float) (r : Robot)
    : bool * Robot :=
  trigger_emergency_stop dev now MANUAL_EMERGENCY r.

Definition _handle_emergency_obstacle (dev : Motor.Device) (now : float) (r : Robot)
    : Robot :=
  if negb (active OBSTACLE_TOO_CLOSE (active_alerts (status r))) then
    snd (trigger_emergency_stop dev now OBSTACLE_TOO_CLOSE r)
  else r.

Definition _handle_warning_obstacle (r : Robot) : Robot :=
  let m := monitor r in
  if level_eqb (level (safety_status m)) SAFE then
    mkRobot
      (mkSafetyMonitor (min_obstacle_distance m) (emergency_stop_distance m)
         (motor_controller m) (sensor_manager m) (led_controller m)
         (with_level WARNING (safety_status m))
         (monitoring_loops m) (warnings_triggered m + 1)%Z (emergency_stops m))
      (motor r)
  else r.

Definition _clear_obstacle_alerts (r : Robot) : Robot :=
  let m := monitor r in
  let st := safety_status m in
  let st1 :=
    if active OBSTACLE_TOO_CLOSE (active_alerts st)
    then with_alerts (remove OBSTACLE_TOO_CLOSE (active_alerts st)) st
    else st in
  let st2 :=
    if level_eqb (level st1) WARNING || level_eqb (level st1) DANGER
    then with_level SAFE st1
    else st1 in
  mkRobot (with_status st2 m) (motor r).

Definition _handle_sensor_failure (dev : Motor.Device) (now : float) (r : Robot)
    : Robot :=
  let m := monitor r in
  let st := safety_status m in
  if negb (active SENSOR_FAILURE (active_alerts st)) then
    let st' := with_level DANGER (with_alerts (active_alerts st ++ [SENSOR_FAILURE]) st) in
    let mc' :=
      if motor_controller m && negb (Motor.is_emergency_stopped (motor r))
      then snd (Motor.emergency_stop dev now (motor r))
      else motor r in
    mkRobot (with_status st' m) mc'
  else r.

(** [_check_sensors]: [distance] is what [read_distance()] returned, [wall]
    is [time.time()] at the reading and [now] the event loop's clock. *)
Definition _check_sensors (dev : Motor.Device) (distance : option float)
    (wall now : float) (r : Robot) : Robot :=
  let m := monitor r in
  if sensor_manager m then
    match distance with
    | Some d =>
        let r1 := mkRobot (with_status (with_reading wall (safety_status m)) m) (motor r) in
        if d <=? emergency_stop_distance m then _handle_emergency_obstacle dev now r1
        else if d <=? min_obstacle_distance m then _handle_warning_obstacle r1
        else _clear_obstacle_alerts r1
    | None => _handle_sensor_failure dev now r
    end
  else r.

(** [(time.time() - last_sensor_reading) > 2.0] *)
Definition stale (wall last : float) : bool := 2 <? wall - last.

Definition _check_communication (wall : float) (r : Robot) : Robot :=
  let m := monitor r in
  let st := safety_status m in
  if stale wall (last_sensor_reading st) then
    if negb (active COMMUNICATION_LOST (active_alerts st)) then
      mkRobot
        (with_status
           (with_level DANGER (with_alerts (active_alerts st ++ [COMMUNICATION_LOST]) st)) m)
        (motor r)
    else r
  else r.

(** What one pass of the monitoring loop reads from outside. *)
Record Tick : Type := mkTick {
  distance : option float;
  wall_at_reading : float;
  wall_at_check : float;
  loop_time : float
}.

(** One pass of the body of [_monitoring_loop]. *)
Definition tick (dev : Motor.Device) (t : Tick) (r : Robot) : Robot :=
  let r1 := _check_sensors dev (distance t) (wall_at_reading t) (loop_time t) r in
  let r2 := _check_communication (wall_at_check t) r1 in
  let m := monitor r2 in
  mkRobot
    (mkSafetyMonitor (min_obstacle_distance m) (emergency_stop_distance m)
       (motor_controller m) (sensor_manager m) (led_controller m) (safety_status m)
       (monitoring_loops m + 1)%Z (warnings_triggered m) (emergency_stops m))
    (motor r2).

(** [resume_after_emergency]: [distance] is what [read_distance()] returns
    when a sensor manager is set. *)
Definition resume_after_emergency (distance : option float) (r : Robot)
    : bool * Robot :=
  let m := monitor r in
  let refused :=
    sensor_manager m &&
    match distance with
    | None => true
    | Some d => d <=? min_obstacle_distance m
    end in
  if refused then (false, r)
  else
    let st' := with_level SAFE (with_alerts [] (safety_status m)) in
    let mc' :=
      if motor_controller m then snd (Motor.resume_from_emergency (motor r))
      else motor r in
    (true, mkRobot (with_status st' m) mc').


Definition is_safe_to_move (r : Robot) : bool :=
  level_eqb (level (status r)) SAFE || level_eqb (level (status r)) WARNING.

End Safety.

(** ** Histories of calls on one robot *)

Module History.

Import Safety.

(** The calls the rest of the program makes on the monitor and on the motor
    controller it shares with the monitor. *)
Inductive Call : Type :=
  | MonitorTick (t : Tick)
  | MonitorTrigger (now : float) (alert : SafetyAlert)
  | MonitorResume (distance : option float)
  | MotorMove (d : Motor.MotorDirection) (now : float) (speed : option Z)
  | MotorStop (now : float)
  | MotorSetSpeed (speed : Z)
  | MotorEmergencyStop (now : float)
  | MotorResume.

Definition on_motor (f : Motor.MotorController -> bool * Motor.MotorController)
    (r : Robot) : Robot :=
  mkRobot (monitor r) (snd (f (motor r))).

Definition call (dev : Motor.Device) (c : Call) (r : Robot) : Robot :=
  match c with
  | MonitorTick t => tick dev t r
  | MonitorTrigger now alert => snd (trigger_emergency_stop dev now alert r)
  | MonitorResume distance => snd (resume_after_emergency distance r)
  | MotorMove d now speed => on_motor (Motor.move d dev now speed) r
  | MotorStop now => on_motor (Motor.stop dev now) r
  | MotorSetSpeed speed => on_motor (Motor.set_speed dev speed) r
  | MotorEmergencyStop now => on_motor (Motor.emergency_stop dev now) r
  | MotorResume => on_motor Motor.resume_from_emergency r
  end.

Definition run (dev : Motor.Device) (calls : list Call) (r : Robot) : Robot :=
  fold_left (fun r c => call dev c r) calls r.

(** A call of the motor controller's own [resume_from_emergency], which does
    not go through the monitor. *)
Definition is_motor_resume (c : Call) : bool :=
  match c with
  | MotorResume => true
  | _ => false
  end.

(** A robot whose monitor has been given its components: the two
    constructors, then [set_robot_components]. *)
Definition boot (serial : bool) (cfg_max_speed cfg_base_speed : Z)
    (cfg_min_distance cfg_emergency_distance : float) : Robot :=
  mkRobot
    (set_robot_components true true true (init cfg_min_distance cfg_emergency_distance))
    (Motor.init serial cfg_max_speed cfg_base_speed).

(** The configuration defaults: simulation mode, speeds 100 and 40,
    thresholds 15.0 and 10.0 cm. *)
Definition default_robot : Robot := boot false 100 40 15%float 10%float.

(** Every read returns the acknowledgement of the command just written. *)
Definition obedient : Motor.Device := fun _ command => Motor.Line ("ACTION:" ++ command).

(** A device that never answers. *)
Definition mute : Motor.Device := fun _ _ => Motor.Silent.

(** "Level Emergency implies the motor is latched". *)
Definition emergency_latched (r : Robot) : Prop :=
  level (status r) = EMERGENCY -> latched r = true.

(** The invariant: the monitor holds the motor controller, and level
    Emergency implies the latch. *)
Definition wired_and_latched (r : Robot) : Prop :=
  motor_controller (monitor r) = true /\ emergency_latched r.

End History.

(** ** The serial connection under concurrent callers

    [_send_command] on an open connection, cut at its suspension points: the
    write and flush run without suspending; the read loop suspends in
    [await asyncio.sleep(0.001)] after every poll that found no line. *)

Module Channel.

Inductive Caller : Type := MotorCaller | LedCaller | SensorCaller.

Record Request : Type := mkRequest {
  caller : Caller;
  command : string;
  expect_response : bool
}.

(** Where one call of [_send_command] stands. *)
Inductive Phase : Type :=
  | Submitted
  | Polling (polls_left : nat)
  | Returned (response : option string).

Record Task : Type := mkTask {
  request : Request;
  phase : Phase
}.

Record World : Type := mkWorld {
  tasks : list Task;
  (** lines written to the connection, oldest first *)
  written : list string;
  (** lines the device has sent that no caller has read yet *)
  in_waiting : list string
}.

(** One pass of the read loop. *)
Definition poll (polls_left : nat) (inbox : list string) : Phase * list string :=
  match inbox with
  | line :: rest =>
      if String.eqb line "" then
        match polls_left with
        | O => (Returned None, rest)
        | S n => (Polling n, rest)
        end
      else (Returned (Some line), rest)
  | [] =>
      match polls_left with
      | O => (Returned None, [])
      | S n => (Polling n, [])
      end
  end.

(** Run a task until it suspends or returns; [patience] is the number of
    polls the timeout allows. *)
Definition resume (patience : nat) (t : Task) (wire inbox : list string)
    : Task * list string * list string :=
  match phase t with
  | Submitted =>
      let wire' := (wire ++ [command (request t)])%list in
      if expect_response (request t) then
        let '(ph, inbox') := poll patience inbox in
        (mkTask (request t) ph, wire', inbox')
      else (mkTask (request t) (Returned None), wire', inbox)
  | Polling n =>
      let '(ph, inbox') := poll n inbox in
      (mkTask (request t) ph, wire, inbox')
  | Returned _ => (t, wire, inbox)
  end.

Fixpoint resume_nth (patience : nat) (i : nat) (ts : list Task)
    (wire inbox : list string) : list Task * list string * list string :=
  match ts, i with
  | [], _ => ([], wire, inbox)
  | t :: rest, O =>
      let '(t', wire', inbox') := resume patience t wire inbox in
      (t' :: rest, wire', inbox')
  | t :: rest, S j =>
      let '(rest', wire', inbox') := resume_nth patience j rest wire inbox in
      (t :: rest', wire', inbox')
  end.

(** What happens next: the event loop resumes a task, or the device sends a line. *)
Inductive Event : Type :=
  | Resume (i : nat)
  | Arrives (line : string).

Definition step (patience : nat) (e : Event) (w : World) : World :=
  match e with
  | Resume i =>
      let '(ts, wire, inbox) := resume_nth patience i (tasks w) (written w) (in_waiting w) in
      mkWorld ts wire inbox
  | Arrives line => mkWorld (tasks w) (written w) (in_waiting w ++ [line])%list
  end.

Definition exec (patience : nat) (schedule : list Event) (w : World) : World :=
  fold_left (fun w e => step patience e w) schedule w.

Definition submit (requests : list Request) : World :=
  mkWorld (map (fun q => mkTask q Submitted) requests) [] [].

Definition is_in_flight (t : Task) : bool :=
  match phase t with
  | Polling _ => true
  | _ => false
  end.

(** Commands written whose caller still waits for the answer. *)
Definition in_flight (w : World) : nat := List.length (filter is_in_flight (tasks w)).

Definition has_started (t : Task) : bool :=
  match phase t with
  | Submitted => false
  | _ => true
  end.

(** Number of calls that have written their command. *)
Definition started (ts : list Task) : nat := List.length (filter has_started ts).

Definition responses (w : World) : list (Caller * Phase) :=
  map (fun t => (caller (request t), phase t)) (tasks w).

(** A motor move and the monitor's sensor read, both awaiting a response. *)
Definition move_and_read : list Request :=
  [mkRequest MotorCaller "MOVE_FORWARD" true;
   mkRequest SensorCaller "READ_SENSORS" true].

(** The device's answers to the two, in the order it received them. *)
Definition move_answer : string := "ACTION:MOVE_FORWARD:SPEED:50".
Definition read_answer : string :=
  "SENSORS:{" ++ String (ascii_of_nat 34) "distance" ++ String (ascii_of_nat 34) ":150}".

End Channel.

(** ** Python numbers *)

Module Num.

(** [float(n)] for an [int]: the nearest binary64; [None] is the
    [OverflowError] beyond the range. *)
Definition float_of_int (n : Z) : option float :=
  match binary_normalize prec emax n 0 false with
  | S754_infinity _ => None
  | sf => Some (SF2Prim sf)
  end.

(** [int(x)] for a [float]: truncation toward zero; [None] is the exception
    raised on an infinity or a NaN. *)
Definition int_of_float (x : float) : option Z :=
  match Prim2SF x with
  | S754_zero _ => Some 0
  | S754_finite s m e =>
      Some (cond_Zopp s
              match e with
              | Zneg p => Z.pos m / 2 ^ Z.pos p
              | _ => Z.pos m * 2 ^ e
              end)
  | _ => None
  end.

(** [max(a, b)] on floats: [b] when [b > a], else [a]. *)
Definition max_float (a b : float) : float :=
  if PrimFloat.ltb a b then b else a.

End Num.

(** ** [motor_controller.py]: start-up, shutdown and emotional moves *)

Module Lifecycle.

Import Motor.

Definition set_connection (is_open : bool) (mc : MotorController) : MotorController :=
  mkMotorController (motor_state mc) (max_speed mc) (base_speed mc)
    (_is_emergency_stopped mc) (SERIAL_AVAILABLE mc) is_open (written mc) (exchanges mc).

(** [initialize]: [port_opens] tells whether [serial.Serial(...)] returns;
    when it raises, the handler returns [False]. *)
Definition initialize (dev : Device) (port_opens : bool) (mc : MotorController)
    : bool * MotorController :=
  if negb (SERIAL_AVAILABLE mc) then (true, mc)
  else if connection_open mc then (true, mc)
  else if negb port_opens then (false, mc)
  else
    let mc0 := set_connection true mc in
    let '(response, mc1) := _send_command dev "PING" true mc0 in
    if Py.acknowledged "PONG" response then
      let '(_, mc2) := _send_command dev "STOP" false mc1 in
      let '(_, mc3) := _send_command dev (set_speed_command (base_speed mc2)) false mc2 in
      (true, mc3)
    else (false, mc1).

(** [shutdown]: a last [stop], then the connection is closed when it is open. *)
Definition shutdown (dev : Device) (now : float) (mc : MotorController) : MotorController :=
  let '(_, mc1) := stop dev now mc in
  if connection_open mc1 then set_connection false mc1 else mc1.

(** A [speed_multiplier] as the configuration holds it: YAML gives an [int]
    or a [float]. *)
Inductive Multiplier : Type :=
  | IntMultiplier (n : Z)
  | FloatMultiplier (x : float).

(** [config['behavior']['emotions']]: per emotion, its [speed_multiplier]
    when the entry has one. *)
Definition Emotions : Type := list (string * option Multiplier).

Fixpoint get (key : string) (table : Emotions) : option (option Multiplier) :=
  match table with
  | [] => None
  | (k, v) :: rest => if String.eqb key k then Some v else get key rest
  end.

(** [....get(emotion_state, {}).get('speed_multiplier', 1.0)] *)
Definition speed_multiplier (emotions : Emotions) (emotion_state : string) : Multiplier :=
  match get emotion_state emotions with
  | Some (Some m) => m
  | _ => FloatMultiplier 1%float
  end.

(** [int(self.base_speed * speed_multiplier)]; [None] when it raises. *)
Definition scaled_speed (base : Z) (m : Multiplier) : option Z :=
  match m with
  | IntMultiplier n => Some (base * n)
  | FloatMultiplier x =>
      match Num.float_of_int base with
      | Some b => Num.int_of_float (PrimFloat.mul b x)
      | None => None
      end
  end.

(** [max(10, min(emotional_speed, self.max_speed))] *)
Definition emotional_speed (mc : MotorController) (m : Multiplier) : option Z :=
  match scaled_speed (base_speed mc) m with
  | Some s => Some (Z.max 10 (Z.min s (max_speed mc)))
  | None => None
  end.

(** [move_with_emotion].  [flush_raises] tells whether the buffer flush at
    its start, attempted when a connection object exists, raises; the
    function has no handler, so the exception leaves it ([None]). *)
Definition move_with_emotion (dev : Device) (now : float) (flush_raises : bool)
    (emotions : Emotions) (direction : MotorDirection) (emotion_state : string)
    (mc : MotorController) : option (bool * MotorController) :=
  if flush_raises then None
  else
    match emotional_speed mc (speed_multiplier emotions emotion_state) with
    | None => None
    | Some s =>
        Some match direction with
             | FORWARD => move_forward dev now (Some s) mc
             | BACKWARD => move_backward dev now (Some s) mc
             | TURN_LEFT => turn_left dev now (Some s) mc
             | TURN_RIGHT => turn_right dev now (Some s) mc
             | STOP => stop dev now mc
             end
    end.

End Lifecycle.

(** ** [led_controller.py] *)

Module Led.

Inductive LEDExpression : Type :=
  | OFF | BLINK | PULSE | SLOW_PULSE | HAPPY | SAD | CURIOUS | ALERT
  | FOCUSED | PLAYFUL | RESTING.

Definition value (e : LEDExpression) : Z :=
  match e with
  | OFF => 0 | BLINK => 1 | PULSE => 2 | SLOW_PULSE => 3 | HAPPY => 4
  | SAD => 5 | CURIOUS => 6 | ALERT => 7 | FOCUSED => 8 | PLAYFUL => 9
  | RESTING => 10
  end.

Record LEDController : Type := mkLEDController {
  current_expression : LEDExpression;
  is_animating : bool;
  (** whether [arduino_serial] is set; it is the robot's motor controller *)
  arduino_serial : bool
}.

(** The LED controller with the motor controller it sends through. *)
Record Board : Type := mkBoard {
  led : LEDController;
  serial : Motor.MotorController
}.

Definition init : LEDController := mkLEDController OFF false false.

Definition set_arduino_serial (l : LEDController) : LEDController :=
  mkLEDController (current_expression l) (is_animating l) true.

(** [f"LED_PATTERN:{expression.value}"] *)
Definition pattern_command (e : LEDExpression) : string :=
  "LED_PATTERN:" ++ Py.str (value e).

(** [_stop_animation], as far as the controller's own fields go. *)
Definition _stop_animation (l : LEDController) : LEDController :=
  mkLEDController (current_expression l) false (arduino_serial l).

Definition set_animating (a : bool) (b : Board) : Board :=
  mkBoard (mkLEDController (current_expression (led b)) a (arduino_serial (led b)))
    (serial b).

Definition set_expression (dev : Motor.Device) (e : LEDExpression) (b : Board)
    : bool * Board :=
  if negb (arduino_serial (led b)) then (false, b)
  else
    let l1 := _stop_animation (led b) in
    let '(response, mc1) :=
      Motor._send_command dev (pattern_command e) true (serial b) in
    if Py.acknowledged "ACTION:LED_PATTERN" response then
      (true, mkBoard (mkLEDController e (is_animating l1) (arduino_serial l1)) mc1)
    else (false, mkBoard l1 mc1).

(** [initialize]: [flush_raises] as for the motor controller; here the
    handler turns the exception into [False]. *)
Definition initialize (dev : Motor.Device) (flush_raises : bool) (b : Board)
    : bool * Board :=
  if flush_raises then (false, b) else set_expression dev OFF b.

(** The expressions a fixed sequence sets, in order. *)
Fixpoint play (dev : Motor.Device) (es : list LEDExpression) (b : Board) : Board :=
  match es with
  | [] => b
  | e :: rest => play dev rest (snd (set_expression dev e b))
  end.

Fixpoint repeat_pair (a b : LEDExpression) (n : nat) : list LEDExpression :=
  match n with
  | O => []
  | S k => a :: b :: repeat_pair a b k
  end.

Definition emergency_pattern (dev : Motor.Device) (b : Board) : bool * Board :=
  let b0 := set_animating true (mkBoard (_stop_animation (led b)) (serial b)) in
  (true, set_animating false (play dev (repeat_pair ALERT OFF 10) b0)).

Definition attention_sequence (dev : Motor.Device) (b : Board) : bool * Board :=
  (true, set_animating false
           (play dev (repeat_pair ALERT OFF 6) (set_animating true b))).

Definition celebration_sequence (dev : Motor.Device) (b : Board) : bool * Board :=
  (true, set_animating false
           (play dev ([HAPPY; PULSE; BLINK] ++ repeat_pair BLINK OFF 5 ++ [OFF])%list
              (set_animating true b))).

Definition shutdown (dev : Motor.Device) (b : Board) : Board :=
  snd (set_expression dev OFF (mkBoard (_stop_animation (led b)) (serial b))).

End Led.

(** ** [safety_monitor.py]: start and stop of the monitoring task *)

Module Supervision.

Import Safety.

Record Supervisor : Type := mkSupervisor {
  robot : Robot;
  (** [_monitoring_task] is set and not done *)
  task_running : bool;
  _is_shutting_down : bool
}.

Definition set_monitoring_active (a : bool) (r : Robot) : Robot :=
  let st := status r in
  mkRobot
    (with_status
       (mkSafetyStatus (level st) (active_alerts st) (last_sensor_reading st)
          (emergency_stops_count st) a) (monitor r))
    (motor r).

Definition start_monitoring (s : Supervisor) : Supervisor :=
  if task_running s then s
  else mkSupervisor (set_monitoring_active true (robot s)) true (_is_shutting_down s).

Definition stop_monitoring (s : Supervisor) : Supervisor :=
  mkSupervisor (set_monitoring_active false (robot s)) false (_is_shutting_down s).

Definition initialize (s : Supervisor) : bool * Supervisor :=
  if motor_controller (monitor (robot s)) && sensor_manager (monitor (robot s))
  then (true, start_monitoring s)
  else (false, s).

Definition shutdown (dev : Motor.Device) (now : float) (s : Supervisor) : Supervisor :=
  let s1 := stop_monitoring
              (mkSupervisor (robot s) (task_running s) true) in
  let r := robot s1 in
  if motor_controller (monitor r) && Motor.is_moving (Motor.motor_state (motor r))
  then mkSupervisor (mkRobot (monitor r) (snd (Motor.stop dev now (motor r))))
         (task_running s1) (_is_shutting_down s1)
  else s1.

(** The binary64 values of the literals [0.05] and [0.01]. *)
Definition period : float := 0x1.999999999999ap-5%float.
Definition floor : float := 0x1.47ae147ae147bp-7%float.

(** The time the loop sleeps after a pass that took [elapsed] seconds:
    [max(0.05 - elapsed, 0.01)]. *)
Definition sleep_time (elapsed : float) : float :=
  Num.max_float (PrimFloat.sub period elapsed) floor.

End Supervision.

(** ** [hardware_integration.py]: the manager's emergency stop *)

Module Manager.

Import Safety.

Record HardwareIntegrationManager : Type := mkManager {
  is_initialized : bool;
  is_operational : bool;
  simulation_mode : bool;
  total_movements : Z;
  total_expressions : Z;
  safety_stops : Z
}.

Record System : Type := mkSystem {
  manager : HardwareIntegrationManager;
  robot : Robot
}.

Definition emergency_stop (dev : Motor.Device) (now : float) (s : System)
    : bool * System :=
  let '(success, r') := manual_emergency_stop dev now (robot s) in
  let m := manager s in
  if success then
    (true, mkSystem (mkManager (is_initialized m) (is_operational m) (simulation_mode m)
                       (total_movements m) (total_expressions m) (safety_stops m + 1))
             r')
  else (false, mkSystem m r').

Definition is_ready (s : System) : bool :=
  is_initialized (manager s) && is_operational (manager s).


End Manager.

(** ** Characters of command lines *)

Module Text.

Fixpoint all_chars (p : ascii -> bool) (s : string) : bool :=
  match s with
  | EmptyString => true
  | String c rest => p c && all_chars p rest
  end.

(** A decimal digit or the minus sign. *)
Definition numeric (c : ascii) : bool :=
  Ascii.eqb c "-" || (Nat.leb 48 (nat_of_ascii c) && Nat.leb (nat_of_ascii c) 57).

End Text.

(** ** Counting over histories *)

Module Tally.

Import Safety History.

(** A call that may clear the latch: either resume. *)
Definition is_resume (c : Call) : bool :=
  match c with
  | MonitorResume _ | MotorResume => true
  | _ => false
  end.

Definition is_tick (c : Call) : bool :=
  match c with
  | MonitorTick _ => true
  | _ => false
  end.

(** Number of passes of the monitoring loop in a history. *)
Definition ticks (calls : list Call) : Z := Z.of_nat (List.length (filter is_tick calls)).

(** The two counters of emergency stops the monitor keeps. *)
Definition counters_agree (r0 r : Robot) : Prop :=
  (emergency_stops_count (status r) - emergency_stops_count (status r0)
   = emergency_stops (monitor r) - emergency_stops (monitor r0))%Z.

(** What every call keeps of the monitor's books, from [r0] to [r]: no
    alert listed twice, the two counters in step and not decreasing, the
    loop counter not decreasing. *)
Definition bookkeeping (r0 r : Robot) : Prop :=
  (NoDup (active_alerts (status r0)) -> NoDup (active_alerts (status r))) /\
  counters_agree r0 r /\
  (emergency_stops_count (status r0) <= emergency_stops_count (status r))%Z /\
  (monitoring_loops (monitor r0) <= monitoring_loops (monitor r))%Z.

(** What every call other than a resume keeps, from [r0] to [r]: a set
    latch, and every active alert other than [OBSTACLE_TOO_CLOSE]. *)
Definition holding (r0 r : Robot) : Prop :=
  (latched r0 = true -> latched r = true) /\
  (forall a, a <> OBSTACLE_TOO_CLOSE ->
             active a (active_alerts (status r0)) = true ->
             active a (active_alerts (status r)) = true).

End Tally.

(** ** Calls served one at a time *)

Module Turns.

Import Channel.

(** The schedule in which each call has the connection to itself: the call
    is run, the device answers, the call is run again; then the next. *)
Fixpoint one_at_a_time (first : nat) (answers : list string) : list Event :=
  match answers with
  | [] => []
  | a :: rest =>
      Resume first :: Arrives a :: Resume first :: one_at_a_time (S first) rest
  end.

(** The call of [q] returned with the answer [a]. *)
Definition answered (qa : Request * string) : Task :=
  mkTask (fst qa) (Returned (Some (snd qa))).



End Turns.

(** * Properties *)

(** ** Order facts on binary64 used by the threshold comparisons *)

Section FloatOrder.

Local Open Scope float_scope.

Lemma SFleb_trans (x y z : spec_float) :
  SFleb x y = true -> SFleb y z = true -> SFleb x z = true.
Proof.
  unfold SFleb.
  destruct x as [sx|sx| |sx mx ex], y as [sy|sy| |sy my ey],
           z as [sz|sz| |sz mz ez];
    cbn [SFcompare];
    try (destruct sx); try (destruct sy); try (destruct sz);
    cbn; try congruence; try tauto.
  - (* all three finite and negative *)
    destruct (Z.compare_spec ex ey), (Z.compare_spec ey ez),
             (Z.compare_spec ex ez); cbn; try congruence; try lia; subst.
    rewrite !Pos.compare_cont_spec; cbn.
    destruct (Pos.compare_spec mx my), (Pos.compare_spec my mz),
             (Pos.compare_spec mx mz); cbn; try congruence; lia.
  - (* all three finite and positive *)
    destruct (Z.compare_spec ex ey), (Z.compare_spec ey ez),
             (Z.compare_spec ex ez); cbn; try congruence; try lia; subst.
    rewrite !Pos.compare_cont_spec; cbn.
    destruct (Pos.compare_spec mx my), (Pos.compare_spec my mz),
             (Pos.compare_spec mx mz); cbn; try congruence; lia.
Qed.

(** [<=] on floats is transitive (a NaN operand makes a premise false). *)
Lemma leb_trans (x y z : float) :
  (x <=? y) = true -> (y <=? z) = true -> (x <=? z) = true.
Proof.
  rewrite !leb_spec. apply SFleb_trans.
Qed.

End FloatOrder.

(** ** The motor controller *)

Section MotorFacts.

Import Motor.

Variable dev : Device.

(** What [_send_command] leaves alone. *)
Lemma send_frame (command : string) (expect : bool) (mc : MotorController) :
  let mc' := snd (_send_command dev command expect mc) in
  motor_state mc' = motor_state mc /\
  _is_emergency_stopped mc' = _is_emergency_stopped mc /\
  max_speed mc' = max_speed mc /\ base_speed mc' = base_speed mc /\
  SERIAL_AVAILABLE mc' = SERIAL_AVAILABLE mc /\
  connection_open mc' = connection_open mc.
Proof.
  unfold _send_command; cbv zeta.
  destruct (SERIAL_AVAILABLE mc) eqn:S, (connection_open mc) eqn:O; cbn;
    rewrite ?S, ?O; auto 10.
  destruct (dev (exchanges mc) command); cbn; rewrite ?S, ?O; auto 10.
Qed.

Lemma send_latch (command : string) (expect : bool) (mc : MotorController) :
  _is_emergency_stopped (snd (_send_command dev command expect mc))
  = _is_emergency_stopped mc.
Proof. apply send_frame. Qed.

(** The wire after one [_send_command]. *)
Lemma send_written (command : string) (expect : bool) (mc : MotorController) :
  written (snd (_send_command dev command expect mc))
  = (written mc ++ if goes_out dev command mc then [command] else [])%list.
Proof.
  unfold _send_command, goes_out.
  destruct (SERIAL_AVAILABLE mc), (connection_open mc); cbn;
    try (now rewrite app_nil_r).
  destruct (dev (exchanges mc) command); cbn; now rewrite ?app_nil_r.
Qed.

Lemma stop_latch (now : float) (mc : MotorController) :
  _is_emergency_stopped (snd (stop dev now mc)) = _is_emergency_stopped mc.
Proof.
  unfold stop.
  pose proof (send_latch "STOP" true mc) as H.
  destruct (_send_command dev "STOP" true mc) as [response mc1]; cbn in *.
  destruct (Py.acknowledged "ACTION:STOP" response); cbn; exact H.
Qed.

Lemma move_latch (d : MotorDirection) (now : float) (speed : option Z)
    (mc : MotorController) :
  _is_emergency_stopped (snd (move d dev now speed mc)) = _is_emergency_stopped mc.
Proof.
  unfold move.
  destruct (_is_emergency_stopped mc) eqn:L; [exact L|].
  cbv zeta.
  set (eff := effective_speed speed mc).
  set (mc1 := if negb (eff =? Motor.speed (motor_state mc))%Z then _ else mc).
  assert (L1 : _is_emergency_stopped mc1 = false).
  { subst mc1. destruct (negb (eff =? Motor.speed (motor_state mc))%Z); [|exact L].
    pose proof (send_latch (set_speed_command eff) false mc) as H1.
    destruct (_send_command dev (set_speed_command eff) false mc) as [r1 mc'].
    cbn in *. congruence. }
  clearbody mc1.
  pose proof (send_latch (value d) true mc1) as H2.
  destruct (_send_command dev (value d) true mc1) as [r2 mc2].
  cbn [snd] in H2.
  destruct (Py.acknowledged _ r2); cbn; congruence.
Qed.

Lemma set_speed_latch (speed : Z) (mc : MotorController) :
  _is_emergency_stopped (snd (set_speed dev speed mc)) = _is_emergency_stopped mc.
Proof.
  unfold set_speed.
  match goal with
  | |- context [_send_command dev ?c true mc] =>
      pose proof (send_latch c true mc) as H;
      destruct (_send_command dev c true mc) as [response mc1]
  end.
  cbn in H.
  destruct (Py.acknowledged _ response); cbn; exact H.
Qed.

Lemma emergency_stop_latch (now : float) (mc : MotorController) :
  _is_emergency_stopped (snd (emergency_stop dev now mc)) = true.
Proof.
  unfold emergency_stop. now rewrite stop_latch.
Qed.

(** C2: while the emergency-stop latch is set, each of the four directional
    moves returns [False] and leaves the controller as it was: nothing is
    written to the serial connection and the motor state is unchanged. *)
Theorem no_motion_while_stopped (now : float) (speed : option Z)
    (mc : MotorController) :
  _is_emergency_stopped mc = true ->
  (move_forward dev now speed mc = (false, mc) /\
   move_backward dev now speed mc = (false, mc) /\
   turn_left dev now speed mc = (false, mc) /\
   turn_right dev now speed mc = (false, mc)) /\
  (forall d, written (snd (move d dev now speed mc)) = written mc) /\
  (forall d, motor_state (snd (move d dev now speed mc)) = motor_state mc).
Proof.
  intros L.
  assert (R : forall d, move d dev now speed mc = (false, mc)).
  { intros d. unfold move. now rewrite L. }
  unfold move_forward, move_backward, turn_left, turn_right.
  repeat split; intros; now rewrite R.
Qed.


End MotorFacts.

(** The latch is set and a move is refused with the wire untouched. *)
Lemma no_motion_while_stopped_witness :
  let mc := Motor.set_latch true (Motor.init true 100 40) in
  Motor._is_emergency_stopped mc = true /\
  Motor.move_forward History.obedient 1%float (Some 40) mc = (false, mc).
Proof.
  split; [reflexivity|].
  apply (no_motion_while_stopped History.obedient 1%float (Some 40)
           (Motor.set_latch true (Motor.init true 100 40))).
  reflexivity.
Defined.

(** ** Speeds on the move path *)

Section MoveSpeed.

Import Motor.

Variable dev : Device.

Lemma effective_speed_formula (speed : option Z) (mc : MotorController) :
  effective_speed speed mc =
  match speed with
  | Some s =>
      if (s =? 0)%Z
      then (if (Motor.speed (motor_state mc) =? 0)%Z then base_speed mc
            else Motor.speed (motor_state mc))
      else s
  | None =>
      if (Motor.speed (motor_state mc) =? 0)%Z then base_speed mc
      else Motor.speed (motor_state mc)
  end.
Proof.
  unfold effective_speed, Py.or_opt, Py.or_int. now destruct speed.
Qed.

(** An effective speed of 0 needs both fallbacks to be 0, and then it equals
    the current speed, so no [SET_SPEED] is issued for it. *)
Lemma effective_speed_zero (speed : option Z) (mc : MotorController) :
  effective_speed speed mc = 0 ->
  Motor.speed (motor_state mc) = 0 /\ base_speed mc = 0.
Proof.
  rewrite effective_speed_formula.
  destruct speed as [s|];
    repeat match goal with
           | |- context [(?a =? 0)%Z] => destruct (Z.eqb_spec a 0)
           end; lia.
Qed.

Lemma move_unfold (d : MotorDirection) (now : float) (speed : option Z)
    (mc : MotorController) :
  _is_emergency_stopped mc = false ->
  move d dev now speed mc =
  let mc1 := after_speed dev speed mc in
  let mc2 := snd (_send_command dev (value d) true mc1) in
  if Py.acknowledged ("ACTION:" ++ value d) (fst (_send_command dev (value d) true mc1))
  then (true, set_motor_state (mkMotorState d (Motor.speed (motor_state mc2)) true now) mc2)
  else (false, mc2).
Proof.
  intros L. unfold move, after_speed. rewrite L. cbv zeta.
  destruct (negb (effective_speed speed mc =? Motor.speed (motor_state mc))%Z).
  - destruct (_send_command dev (set_speed_command (effective_speed speed mc)) false mc)
      as [r1 mc']. cbn [snd].
    match goal with
    | |- context [_send_command dev (value d) true ?m] =>
        destruct (_send_command dev (value d) true m) as [r2 mc2]
    end.
    reflexivity.
  - destruct (_send_command dev (value d) true mc) as [r2 mc2]. reflexivity.
Qed.

Lemma after_speed_speed (speed : option Z) (mc : MotorController) :
  Motor.speed (motor_state (after_speed dev speed mc)) = effective_speed speed mc.
Proof.
  unfold after_speed.
  destruct (Z.eqb_spec (effective_speed speed mc) (Motor.speed (motor_state mc)));
    cbn; congruence.
Qed.

Lemma after_speed_written (speed : option Z) (mc : MotorController) :
  let eff := effective_speed speed mc in
  written (after_speed dev speed mc) =
  (written mc ++
   if negb (eff =? Motor.speed (motor_state mc))%Z && goes_out dev (set_speed_command eff) mc
   then [set_speed_command eff] else [])%list.
Proof.
  unfold after_speed; cbv zeta.
  destruct (negb (effective_speed speed mc =? Motor.speed (motor_state mc))%Z); cbn.
  - apply send_written.
  - now rewrite app_nil_r.
Qed.

(** The speed recorded after a move that is not refused. *)
Lemma move_records_effective (d : MotorDirection) (now : float) (speed : option Z)
    (mc : MotorController) :
  _is_emergency_stopped mc = false ->
  Motor.speed (motor_state (snd (move d dev now speed mc))) = effective_speed speed mc.
Proof.
  intros L. rewrite (move_unfold d now speed mc L). cbv zeta.
  pose proof (send_frame dev (value d) true (after_speed dev speed mc)) as [Hs _].
  destruct (Py.acknowledged _ _); cbn; [|rewrite Hs]; try rewrite Hs;
    apply after_speed_speed.
Qed.

(** The wire after a move that is not refused. *)
Lemma move_written (d : MotorDirection) (now : float) (speed : option Z)
    (mc : MotorController) :
  _is_emergency_stopped mc = false ->
  let eff := effective_speed speed mc in
  written (snd (move d dev now speed mc)) =
  (written mc ++
   (if negb (eff =? Motor.speed (motor_state mc))%Z && goes_out dev (set_speed_command eff) mc
    then [set_speed_command eff] else []) ++
   (if goes_out dev (value d) (after_speed dev speed mc) then [value d] else []))%list.
Proof.
  intros L. cbv zeta. rewrite (move_unfold d now speed mc L). cbv zeta.
  rewrite app_assoc, <- after_speed_written.
  destruct (Py.acknowledged _ _); cbn [snd]; apply send_written.
Qed.

(** C9, as the code has it: on the move path the effective speed is the
    requested speed when it is given and nonzero, else the current speed
    when nonzero, else [base_speed]; it is recorded, and sent in a
    [SET_SPEED] command when it differs from the current speed, without
    clamping.  A request of speed 0 gives the effective speed 0 exactly when
    the current speed and [base_speed] are both 0, and then no [SET_SPEED]
    is sent: a [SET_SPEED] command issued by a move never carries 0.  A
    request above [max_speed] is recorded and sent as it is; only
    [set_speed] clamps, to 0..[max_speed]. *)
Theorem move_speed_is_not_clamped (d : MotorDirection) (now : float)
    (speed : option Z) (mc : MotorController) :
  _is_emergency_stopped mc = false ->
  let cur := Motor.speed (motor_state mc) in
  let eff := effective_speed speed mc in
  let mc' := snd (move d dev now speed mc) in
  eff = match speed with
        | Some s => if (s =? 0)%Z then (if (cur =? 0)%Z then base_speed mc else cur) else s
        | None => if (cur =? 0)%Z then base_speed mc else cur
        end /\
  Motor.speed (motor_state mc') = eff /\
  written mc' =
    (written mc ++
     (if negb (eff =? cur)%Z && goes_out dev (set_speed_command eff) mc
      then [set_speed_command eff] else []) ++
     (if goes_out dev (value d) (after_speed dev speed mc) then [value d] else []))%list /\
  (negb (eff =? cur)%Z = true -> eff <> 0) /\
  (eff = 0 -> cur = 0 /\ base_speed mc = 0) /\
  (speed = Some 0 -> (eff = 0 <-> cur = 0 /\ base_speed mc = 0)) /\
  (forall s, speed = Some s -> max_speed mc < s -> s <> 0 ->
     eff = s /\ Motor.speed (motor_state mc') = s /\
     (s <> cur -> goes_out dev (set_speed_command s) mc = true ->
      In (set_speed_command s) (written mc'))) /\
  (forall s,
     let clamped := Z.max 0 (Z.min s (max_speed mc)) in
     0 <= clamped <= Z.max 0 (max_speed mc) /\
     (fst (set_speed dev s mc) = true ->
      Motor.speed (motor_state (snd (set_speed dev s mc))) = clamped) /\
     written (snd (set_speed dev s mc)) =
       (written mc ++
        if goes_out dev (set_speed_command clamped) mc
        then [set_speed_command clamped] else [])%list).
Proof.
  intros L cur eff mc'.
  pose proof (effective_speed_formula speed mc) as F.
  pose proof (move_records_effective d now speed mc L) as R.
  pose proof (move_written d now speed mc L) as W. cbv zeta in W.
  pose proof (effective_speed_zero speed mc) as Z0.
  fold cur eff in F, R, W, Z0. fold mc' in R, W.
  split; [exact F|]. split; [exact R|]. split; [exact W|].
  split.
  { intros N E0. destruct (Z0 E0) as [C _].
    rewrite E0, C in N. discriminate. }
  split; [exact Z0|].
  split.
  { intros Hz. split; [exact Z0|]. intros [C B]. rewrite F, Hz, C, B. reflexivity. }
  split.
  - intros s -> Hmax Hs.
    assert (E : eff = s).
    { rewrite F. destruct (Z.eqb_spec s 0); [contradiction|reflexivity]. }
    split; [exact E|]. split; [congruence|].
    intros Hcur G. rewrite W, E.
    apply in_or_app; right. apply in_or_app; left.
    rewrite G. destruct (Z.eqb_spec s cur); [contradiction|]. now left.
  - intros s clamped. split; [subst clamped; lia|].
    unfold set_speed. fold clamped.
    pose proof (send_frame dev (set_speed_command clamped) true mc) as [Hs _].
    pose proof (send_written dev (set_speed_command clamped) true mc) as Hw.
    destruct (_send_command dev (set_speed_command clamped) true mc) as [r mc1].
    cbn [snd] in Hs, Hw.
    destruct (Py.acknowledged "ACTION:SPEED_SET" r); cbn; split;
      try exact Hw; try reflexivity; discriminate.
Qed.

End MoveSpeed.

(** A request of 300 with [max_speed] 100 is recorded and sent as 300. *)
Lemma move_speed_is_not_clamped_witness :
  let mc := Motor.mkMotorController (Motor.mkMotorState Motor.STOP 0 false 0%float)
              100 40 false true true [] 0%nat in
  let mc' := snd (Motor.move Motor.FORWARD History.obedient 1%float (Some 300) mc) in
  Motor._is_emergency_stopped mc = false /\
  Motor.speed (Motor.motor_state mc') = 300 /\
  Motor.written mc' = ["SET_SPEED:300"; "MOVE_FORWARD"].
Proof.
  cbv zeta. split; [reflexivity|].
  pose proof (move_speed_is_not_clamped History.obedient Motor.FORWARD 1%float
                (Some 300)
                (Motor.mkMotorController
                   (Motor.mkMotorState Motor.STOP 0 false 0%float)
                   100 40 false true true [] 0%nat) eq_refl) as H.
  cbv zeta in H. destruct H as (_ & R & W & _).
  split; [exact R|exact W].
Defined.

(** C9 as stated fails: with [base_speed] 0 in the configuration and the
    motor at speed 0, a forward move at the requested speed 0 is commanded
    at speed 0: no [SET_SPEED] is sent, [MOVE_FORWARD] goes out, and the
    move is recorded as moving forward at speed 0. *)
Lemma move_speed_is_not_clamped_counterexample :
  let mc := Motor.mkMotorController (Motor.mkMotorState Motor.STOP 0 false 0%float)
              100 0 false true true [] 0%nat in
  let out := Motor.move_forward History.obedient 1%float (Some 0) mc in
  Motor.effective_speed (Some 0) mc = 0 /\
  fst out = true /\
  Motor.motor_state (snd out) = Motor.mkMotorState Motor.FORWARD 0 true 1%float /\
  Motor.written (snd out) = ["MOVE_FORWARD"].
Proof.
  cbv zeta. repeat split.
Qed.

(** ** The safety monitor *)

Ltac break_if :=
  match goal with
  | |- context [if ?c then _ else _] => destruct c eqn:?
  end.

Section SafetyFacts.

Import Safety.
Local Open Scope float_scope.
Local Open Scope list_scope.

Variable dev : Motor.Device.

Lemma alert_eqb_refl (a : SafetyAlert) : alert_eqb a a = true.
Proof. now destruct a. Qed.

Lemma active_app (a b : SafetyAlert) (alerts : list SafetyAlert) :
  active a (alerts ++ [b]) = active a alerts || alert_eqb a b.
Proof.
  unfold active. rewrite existsb_app. cbn. now rewrite orb_false_r.
Qed.

Lemma active_added (a : SafetyAlert) (alerts : list SafetyAlert) :
  active a (if active a alerts then alerts else alerts ++ [a]) = true.
Proof.
  destruct (active a alerts) eqn:E; [exact E|].
  now rewrite active_app, alert_eqb_refl, orb_true_r.
Qed.

(** What [trigger_emergency_stop] establishes. *)
Lemma trigger_establishes (now : float) (alert : SafetyAlert) (r : Robot) :
  let r' := snd (trigger_emergency_stop dev now alert r) in
  level (status r') = EMERGENCY /\
  active alert (active_alerts (status r')) = true /\
  (forall a, active a (active_alerts (status r)) = true ->
             active a (active_alerts (status r')) = true) /\
  motor_controller (monitor r') = motor_controller (monitor r) /\
  sensor_manager (monitor r') = sensor_manager (monitor r) /\
  (motor_controller (monitor r) = true -> latched r' = true) /\
  (latched r = true -> latched r' = true).
Proof.
  unfold trigger_emergency_stop, status, latched; cbv zeta.
  cbn [snd monitor motor safety_status level active_alerts motor_controller
       sensor_manager].
  repeat split.
  - apply active_added.
  - intros a H. destruct (active alert (active_alerts (safety_status (monitor r))));
      [exact H|].
    now rewrite active_app, H.
  - intros ->. apply emergency_stop_latch.
  - intros L. destruct (motor_controller (monitor r)); [|exact L].
    apply emergency_stop_latch.
Qed.

(** The communication check leaves everything alone when the reading is fresh. *)
Lemma check_communication_fresh (wall : float) (r : Robot) :
  stale wall (last_sensor_reading (status r)) = false ->
  _check_communication wall r = r.
Proof.
  intros F. unfold _check_communication. unfold status in F. now rewrite F.
Qed.

(** The communication check only ever sets Danger and never touches the motor. *)
Lemma check_communication_effect (wall : float) (r : Robot) :
  let r' := _check_communication wall r in
  motor r' = motor r /\
  motor_controller (monitor r') = motor_controller (monitor r) /\
  (level (status r') = level (status r) \/ level (status r') = DANGER) /\
  (forall a, active a (active_alerts (status r)) = true ->
             active a (active_alerts (status r')) = true).
Proof.
  unfold _check_communication, status; cbv zeta.
  destruct (stale _ _); [destruct (negb _)|];
    cbn [motor monitor safety_status with_status with_level with_alerts level
         active_alerts motor_controller];
    repeat split; auto.
  intros a H. now rewrite active_app, H.
Qed.

(** The bookkeeping at the end of a tick. *)
Lemma tick_projections (t : Tick) (r : Robot) :
  let r2 := _check_communication (wall_at_check t)
              (_check_sensors dev (distance t) (wall_at_reading t) (loop_time t) r) in
  status (tick dev t r) = status r2 /\ motor (tick dev t r) = motor r2 /\
  motor_controller (monitor (tick dev t r)) = motor_controller (monitor r2).
Proof. cbn. auto. Qed.


(** C5, as the code has it: in a tick whose reading is above
    [emergency_stop_distance] and at or below [min_obstacle_distance], taken
    at level Safe or Warning with the reading fresh at the communication
    check, the level is Warning at the end of the tick and the motor
    controller, its latch included, is left as it was. *)
Theorem warning_distance_tick (t : Tick) (d : float) (r : Robot) :
  sensor_manager (monitor r) = true ->
  distance t = Some d ->
  (d <=? emergency_stop_distance (monitor r)) = false ->
  (d <=? min_obstacle_distance (monitor r)) = true ->
  level (status r) = SAFE \/ level (status r) = WARNING ->
  stale (wall_at_check t) (wall_at_reading t) = false ->
  let r' := tick dev t r in
  level (status r') = WARNING /\ motor r' = motor r /\ latched r' = latched r.
Proof.
  intros Hs Hd Hgt Hle Hlevel Hfresh r'.
  destruct (tick_projections t r) as (St & Mo & _). fold r' in St, Mo.
  unfold _check_sensors in St, Mo. rewrite Hs, Hd in St, Mo. cbv zeta in St, Mo.
  rewrite Hgt, Hle in St, Mo.
  unfold _handle_warning_obstacle in St, Mo. unfold status in Hlevel.
  cbn [monitor safety_status with_status with_reading level] in St, Mo.
  destruct Hlevel as [Hl|Hl]; rewrite Hl in St, Mo;
    cbn [level_eqb rank Nat.eqb] in St, Mo;
    rewrite check_communication_fresh in St, Mo by exact Hfresh;
    unfold latched; rewrite St, Mo; cbn; auto.
Qed.

(** C6, as the code has it: with a sensor manager set,
    [resume_after_emergency] called while the sensor gives no reading, or a
    reading at or below [min_obstacle_distance], returns [False] and leaves
    the robot as it was: same level, same active alerts, same latch.  A
    reading at or below [emergency_stop_distance] is refused whenever the
    thresholds are in their order, [emergency_stop_distance] at most
    [min_obstacle_distance]. *)
Theorem resume_refused_while_hazard (reading : option float) (r : Robot) :
  sensor_manager (monitor r) = true ->
  match reading with
  | None => True
  | Some d => (d <=? min_obstacle_distance (monitor r)) = true
  end ->
  let out := resume_after_emergency reading r in
  out = (false, r) /\
  status (snd out) = status r /\
  level (status (snd out)) = level (status r) /\
  active_alerts (status (snd out)) = active_alerts (status r) /\
  latched (snd out) = latched r /\
  ((emergency_stop_distance (monitor r) <=? min_obstacle_distance (monitor r)) = true ->
   forall d, (d <=? emergency_stop_distance (monitor r)) = true ->
             resume_after_emergency (Some d) r = (false, r)).
Proof.
  intros Hs Hhaz out.
  assert (W : forall d, (d <=? min_obstacle_distance (monitor r)) = true ->
                        resume_after_emergency (Some d) r = (false, r)).
  { intros d Hd. unfold resume_after_emergency. now rewrite Hs, Hd. }
  assert (E : out = (false, r)).
  { subst out. destruct reading as [d|].
    - apply W. exact Hhaz.
    - unfold resume_after_emergency. now rewrite Hs. }
  rewrite E. cbn [snd]. repeat split.
  intros Hord d Hd. apply W. exact (leb_trans _ _ _ Hd Hord).
Qed.

(** C10: in a tick in which the sensor gives no reading and [SENSOR_FAILURE]
    is not yet active (monitor wired to the sensor and the motor controller),
    [SENSOR_FAILURE] becomes active, the level is Danger and not Emergency,
    and the motor controller is latched: through its [emergency_stop] when it
    was not latched, left alone when it was.  So the latch can be set while
    the level is Danger. *)
Theorem sensor_failure_tick (t : Tick) (r : Robot) :
  sensor_manager (monitor r) = true ->
  motor_controller (monitor r) = true ->
  distance t = None ->
  active SENSOR_FAILURE (active_alerts (status r)) = false ->
  let r' := tick dev t r in
  active SENSOR_FAILURE (active_alerts (status r')) = true /\
  level (status r') = DANGER /\
  level (status r') <> EMERGENCY /\
  latched r' = true /\
  motor r' = (if latched r then motor r
              else snd (Motor.emergency_stop dev (loop_time t) (motor r))).
Proof.
  intros Hs Hm Hd Hna r'.
  destruct (tick_projections t r) as (St & Mo & _). fold r' in St, Mo.
  unfold _check_sensors in St, Mo. rewrite Hs, Hd in St, Mo.
  unfold _handle_sensor_failure in St, Mo. unfold status in Hna.
  cbv zeta in St, Mo. rewrite Hna, Hm in St, Mo. cbn [negb andb] in St, Mo.
  match type of St with
  | _ = status (_check_communication ?w ?r1) =>
      pose proof (check_communication_effect w r1) as C; cbv zeta in C;
      destruct C as (CM & _ & CL & CA)
  end.
  rewrite CM in Mo. cbn [motor] in Mo.
  assert (A : active SENSOR_FAILURE (active_alerts (status r')) = true).
  { rewrite St. apply CA. unfold status.
    cbn [monitor safety_status with_status with_level with_alerts active_alerts].
    now rewrite active_app, alert_eqb_refl, orb_true_r. }
  assert (L : level (status r') = DANGER).
  { rewrite St. destruct CL as [CL|CL]; rewrite CL; reflexivity. }
  assert (M : motor r' = (if latched r then motor r
                          else snd (Motor.emergency_stop dev (loop_time t) (motor r)))).
  { rewrite Mo. unfold latched. now destruct (Motor.is_emergency_stopped (motor r)). }
  repeat split; auto.
  - rewrite L. discriminate.
  - unfold latched at 1. rewrite M. unfold latched.
    destruct (Motor.is_emergency_stopped (motor r)) eqn:E; [exact E|].
    apply emergency_stop_latch.
Qed.

End SafetyFacts.

(** ** How the level moves *)

Section Levels.

Import Safety.
Local Open Scope float_scope.
Local Open Scope list_scope.

Variable dev : Motor.Device.

Lemma clear_obstacle_alerts_effect (r : Robot) :
  let r' := _clear_obstacle_alerts r in
  motor r' = motor r /\
  motor_controller (monitor r') = motor_controller (monitor r) /\
  level (status r') =
    match level (status r) with
    | WARNING | DANGER => SAFE
    | l => l
    end.
Proof.
  unfold _clear_obstacle_alerts, status; cbv zeta.
  cbn [motor monitor with_status motor_controller safety_status].
  repeat split.
  destruct (active OBSTACLE_TOO_CLOSE (active_alerts (safety_status (monitor r))));
    destruct (level (safety_status (monitor r))) eqn:E; cbn; rewrite ?E; cbn;
    rewrite ?E; reflexivity.
Qed.

Lemma handle_warning_obstacle_effect (r : Robot) :
  let r' := _handle_warning_obstacle r in
  motor r' = motor r /\
  motor_controller (monitor r') = motor_controller (monitor r) /\
  level (status r') =
    match level (status r) with
    | SAFE => WARNING
    | l => l
    end.
Proof.
  unfold _handle_warning_obstacle, status; cbv zeta.
  destruct (level (safety_status (monitor r))) eqn:E; cbn; rewrite ?E; auto.
Qed.



End Levels.

(** ** The latch under Emergency, along histories of calls *)

Section Latch.

Import Safety History.
Local Open Scope float_scope.
Local Open Scope list_scope.

Variable dev : Motor.Device.

Lemma trigger_invariant (now : float) (alert : SafetyAlert) (r : Robot) :
  motor_controller (monitor r) = true ->
  wired_and_latched (snd (trigger_emergency_stop dev now alert r)).
Proof.
  intros W. destruct (trigger_establishes dev now alert r) as (_ & _ & _ & M & _ & L & _).
  split; [now rewrite M|]. intros _. now apply L.
Qed.

Lemma check_sensors_invariant (t : Tick) (r : Robot) :
  wired_and_latched r ->
  wired_and_latched (_check_sensors dev (distance t) (wall_at_reading t) (loop_time t) r).
Proof.
  intros [W I]. unfold _check_sensors; cbv zeta.
  destruct (sensor_manager (monitor r)); [|now split].
  destruct (distance t) as [d|].
  - assert (I0 : wired_and_latched
                   (mkRobot (with_status (with_reading (wall_at_reading t)
                                            (safety_status (monitor r))) (monitor r))
                      (motor r))) by (split; [exact W|exact I]).
    revert I0.
    set (r0 := mkRobot _ (motor r)). intros [W0 I0].
    destruct (d <=? emergency_stop_distance (monitor r));
      [|destruct (d <=? min_obstacle_distance (monitor r))].
    + unfold _handle_emergency_obstacle. break_if; [|now split].
      now apply trigger_invariant.
    + destruct (handle_warning_obstacle_effect r0) as (M & A & L).
      split; [now rewrite A|]. unfold emergency_latched, latched in *.
      rewrite L, M. destruct (level (status r0)); auto; discriminate.
    + destruct (clear_obstacle_alerts_effect r0) as (M & A & L).
      split; [now rewrite A|]. unfold emergency_latched, latched in *.
      rewrite L, M. destruct (level (status r0)); auto; discriminate.
  - unfold _handle_sensor_failure; cbv zeta. break_if; [|now split].
    split; [exact W|]. unfold emergency_latched, status. cbn. discriminate.
Qed.

Lemma check_communication_invariant (wall : float) (r : Robot) :
  wired_and_latched r -> wired_and_latched (_check_communication wall r).
Proof.
  intros [W I]. destruct (check_communication_effect wall r) as (M & A & L & _).
  split; [now rewrite A|]. unfold emergency_latched, latched in *. rewrite M.
  destruct L as [L|L]; rewrite L; [exact I|discriminate].
Qed.

Lemma tick_invariant (t : Tick) (r : Robot) :
  wired_and_latched r -> wired_and_latched (tick dev t r).
Proof.
  intros H.
  pose proof (check_communication_invariant (wall_at_check t) _
                (check_sensors_invariant t r H)) as [W I].
  destruct (tick_projections dev t r) as (St & Mo & Mc).
  split; [now rewrite Mc|]. unfold emergency_latched, latched in *.
  now rewrite St, Mo.
Qed.

Lemma on_motor_invariant (f : Motor.MotorController -> bool * Motor.MotorController)
    (r : Robot) :
  (forall mc, Motor._is_emergency_stopped mc = true ->
              Motor._is_emergency_stopped (snd (f mc)) = true) ->
  wired_and_latched r -> wired_and_latched (on_motor f r).
Proof.
  intros Keep [W I]. split; [exact W|].
  unfold emergency_latched, latched, on_motor, status in *. cbn.
  intros E. apply Keep. now apply I.
Qed.

(** Every call other than the motor controller's own resume keeps the invariant. *)
Lemma call_invariant (c : Call) (r : Robot) :
  is_motor_resume c = false ->
  wired_and_latched r -> wired_and_latched (call dev c r).
Proof.
  intros N H. destruct c; cbn [call]; try discriminate.
  - now apply tick_invariant.
  - apply trigger_invariant, H.
  - destruct H as [W I]. unfold resume_after_emergency; cbv zeta.
    break_if; cbn [snd]; [now split|].
    split; [exact W|]. unfold emergency_latched, status. cbn. discriminate.
  - apply on_motor_invariant; [|exact H]. intros mc L. now rewrite move_latch.
  - apply on_motor_invariant; [|exact H]. intros mc L. now rewrite stop_latch.
  - apply on_motor_invariant; [|exact H]. intros mc L. now rewrite set_speed_latch.
  - apply on_motor_invariant; [|exact H]. intros mc _. apply emergency_stop_latch.
Qed.

Lemma run_invariant (calls : list Call) (r : Robot) :
  forallb (fun c => negb (is_motor_resume c)) calls = true ->
  wired_and_latched r -> wired_and_latched (run dev calls r).
Proof.
  revert r. induction calls as [|c calls IH]; intros r N H; [exact H|].
  cbn in N. apply andb_true_iff in N as [Nc Ncs].
  apply negb_true_iff in Nc.
  cbn [run fold_left]. apply IH; [exact Ncs|]. now apply call_invariant.
Qed.

(** C1, as the code has it: with the monitor holding the motor controller,
    [trigger_emergency_stop] returns with the level at Emergency and the
    latch set, whatever the device does; and along every history of calls
    that does not call the motor controller's own [resume_from_emergency],
    level Emergency implies the latch in every state reached. *)
Theorem emergency_implies_latch (calls : list Call) (r : Robot) :
  motor_controller (monitor r) = true ->
  emergency_latched r ->
  forallb (fun c => negb (is_motor_resume c)) calls = true ->
  emergency_latched (run dev calls r) /\
  (forall now alert,
     let r' := snd (trigger_emergency_stop dev now alert (run dev calls r)) in
     level (status r') = EMERGENCY /\ latched r' = true).
Proof.
  intros W I N.
  destruct (run_invariant calls r N (conj W I)) as [W' I'].
  split; [exact I'|].
  intros now alert r'.
  destruct (trigger_establishes dev now alert (run dev calls r)) as (L & _ & _ & _ & _ & M & _).
  split; [exact L|now apply M].
Qed.

End Latch.

(** ** Concrete runs *)

Section Runs.

Import Safety History.
Local Open Scope float_scope.
Local Open Scope list_scope.



(** A reading of 12.5 cm, between the default thresholds 10 and 15. *)
Lemma warning_distance_tick_witness :
  let t := mkTick (Some 12.5) 1000 1000 1 in
  let r' := tick obedient t default_robot in
  (12.5 <=? emergency_stop_distance (monitor default_robot)) = false /\
  (12.5 <=? min_obstacle_distance (monitor default_robot)) = true /\
  level (status r') = WARNING /\
  latched r' = false.
Proof.
  cbv zeta. split; [reflexivity|]. split; [reflexivity|].
  destruct (warning_distance_tick obedient (mkTick (Some 12.5) 1000 1000 1) 12.5
              default_robot eq_refl eq_refl eq_refl eq_refl (or_introl eq_refl) eq_refl)
    as (L & _ & M).
  split; [exact L|exact M].
Defined.

(** C5 as stated fails: 25.0 cm is above the warning threshold of 15, and a
    tick that reads it on the freshly wired robot leaves the level at Safe. *)
Lemma warning_distance_tick_counterexample :
  let t := mkTick (Some 25) 1000 1000 1 in
  (25 <=? min_obstacle_distance (monitor default_robot)) = false /\
  level (status (tick obedient t default_robot)) = SAFE /\
  level (status (tick obedient t default_robot)) <> WARNING.
Proof.
  cbv zeta. repeat split; try reflexivity.
  vm_compute. discriminate.
Qed.

(** After an emergency at 5.0 cm, resuming while the reading is still 5.0 cm
    is refused. *)
Lemma resume_refused_while_hazard_witness :
  let r := tick obedient (mkTick (Some 5) 1000 1000 1) default_robot in
  level (status r) = EMERGENCY /\
  resume_after_emergency (Some 5) r = (false, r) /\
  resume_after_emergency None r = (false, r).
Proof.
  cbv zeta. split; [reflexivity|]. split.
  - destruct (resume_refused_while_hazard (Some 5)
                (tick obedient (mkTick (Some 5) 1000 1000 1) default_robot)
                eq_refl eq_refl) as [E _].
    exact E.
  - destruct (resume_refused_while_hazard None
                (tick obedient (mkTick (Some 5) 1000 1000 1) default_robot)
                eq_refl I) as [E _].
    exact E.
Defined.

(** A tick without a reading on the freshly wired robot: Danger, latched. *)
Lemma sensor_failure_tick_witness :
  let r' := tick mute (mkTick None 1000 1000 1) default_robot in
  latched default_robot = false /\
  level (status r') = DANGER /\
  latched r' = true.
Proof.
  cbv zeta. split; [reflexivity|].
  destruct (sensor_failure_tick mute (mkTick None 1000 1000 1) default_robot
              eq_refl eq_refl eq_refl eq_refl) as (_ & L & _ & M & _).
  split; [exact L|exact M].
Defined.


(** C6 as stated fails: with [min_obstacle_distance] 15 and
    [emergency_stop_distance] 20, which the constructor accepts, a reading
    of 18 cm puts the robot in Emergency, and [resume_after_emergency] at
    the same reading, at most [emergency_stop_distance], returns [True],
    sets the level to Safe, clears the alerts and releases the latch. *)
Lemma resume_refused_while_hazard_counterexample :
  let r := tick obedient (mkTick (Some 18) 1000 1000 1) (boot false 100 40 15 20) in
  let out := resume_after_emergency (Some 18) r in
  (18 <=? emergency_stop_distance (monitor r)) = true /\
  level (status r) = EMERGENCY /\
  latched r = true /\
  fst out = true /\
  level (status (snd out)) = SAFE /\
  active_alerts (status (snd out)) = [] /\
  latched (snd out) = false.
Proof.
  cbv zeta. repeat split.
Qed.

(** Emergency reaches Safe over three ticks without any resume: 5.0 cm,
    then no reading, then 25.0 cm.  The motor stays latched. *)
Example emergency_to_safe_through_danger :
  let r1 := tick obedient (mkTick (Some 5) 1000 1000 1) default_robot in
  let r2 := tick obedient (mkTick None 1000 1000.5 2) r1 in
  let r3 := tick obedient (mkTick (Some 25) 1001 1001 3) r2 in
  level (status r1) = EMERGENCY /\
  level (status r2) = DANGER /\
  level (status r3) = SAFE /\
  latched r3 = true.
Proof.
  cbv zeta. repeat split.
Qed.


(** On an open connection to a device that never answers, the motor's
    [emergency_stop] returns [False] and the latch is set all the same. *)
Example emergency_stop_on_a_mute_device :
  let mc := Motor.mkMotorController (Motor.mkMotorState Motor.FORWARD 40 true 0)
              100 40 false true true [] 0%nat in
  let out := Motor.emergency_stop mute 1 mc in
  fst out = false /\
  Motor._is_emergency_stopped (snd out) = true /\
  Motor.written (snd out) = ["STOP"%string] /\
  Motor.is_moving (Motor.motor_state (snd out)) = true.
Proof. cbv zeta. repeat split. Qed.

(** A manual emergency stop followed by a move attempt and a tick. *)
Lemma emergency_implies_latch_witness :
  let r := run mute
             [MonitorTrigger 1 MANUAL_EMERGENCY;
              MotorMove Motor.FORWARD 2 (Some 40%Z);
              MonitorTick (mkTick (Some 25) 1000 1000 3)] default_robot in
  level (status r) = EMERGENCY /\ latched r = true.
Proof.
  cbv zeta. split; [reflexivity|].
  assert (I0 : emergency_latched default_robot) by (intros E; discriminate E).
  destruct (emergency_implies_latch mute
              [MonitorTrigger 1 MANUAL_EMERGENCY;
               MotorMove Motor.FORWARD 2 (Some 40%Z);
               MonitorTick (mkTick (Some 25) 1000 1000 3)] default_robot
              eq_refl I0 eq_refl) as [H _].
  apply H. reflexivity.
Defined.

(** C1 as stated fails: after a manual emergency stop, a call of the motor
    controller's own [resume_from_emergency] clears the latch while the
    level stays Emergency. *)
Lemma emergency_implies_latch_counterexample :
  let r := run obedient [MonitorTrigger 1 MANUAL_EMERGENCY; MotorResume] default_robot in
  level (status r) = EMERGENCY /\ latched r = false /\ ~ emergency_latched r.
Proof.
  cbv zeta. repeat split. intros H. specialize (H eq_refl). discriminate H.
Qed.

End Runs.

(** ** The serial connection under concurrent callers *)

Section Concurrency.

Import Channel.
Local Open Scope list_scope.

Lemma poll_not_submitted (n : nat) (inbox : list string) :
  fst (poll n inbox) <> Submitted.
Proof.
  unfold poll. destruct inbox as [|l rest]; [|destruct (String.eqb l EmptyString)];
    try destruct n; cbn; discriminate.
Qed.

(** Running one task writes nothing, or writes its whole command when it had
    not started. *)
Lemma resume_writes (patience : nat) (t : Task) (wire inbox : list string) :
  let out := resume patience t wire inbox in
  request (fst (fst out)) = request t /\
  ((snd (fst out) = wire /\ has_started (fst (fst out)) = has_started t) \/
   (snd (fst out) = wire ++ [command (request t)] /\
    has_started t = false /\ has_started (fst (fst out)) = true)).
Proof.
  cbv zeta. unfold resume. destruct t as [q ph]; cbn [phase request].
  destruct ph as [|n|resp].
  - destruct (expect_response q).
    + pose proof (poll_not_submitted patience inbox) as N.
      destruct (poll patience inbox) as [ph' inbox']; cbn [fst snd request] in *.
      split; [reflexivity|]. right. repeat split.
      unfold has_started; cbn [phase]. now destruct ph'.
    + cbn [fst snd request]. split; [reflexivity|]. right. repeat split.
  - pose proof (poll_not_submitted n inbox) as N.
    destruct (poll n inbox) as [ph' inbox']; cbn [fst snd request] in *.
    split; [reflexivity|]. left. split; [reflexivity|].
    unfold has_started; cbn [phase]. now destruct ph'.
  - cbn. split; [reflexivity|]. left. split; reflexivity.
Qed.

(** Resuming the i-th task either writes nothing, or writes the whole command
    of a task that had not started. *)
Lemma resume_nth_writes (patience i : nat) (ts : list Task) (wire inbox : list string) :
  let out := resume_nth patience i ts wire inbox in
  map request (fst (fst out)) = map request ts /\
  ((snd (fst out) = wire /\ started (fst (fst out)) = started ts) \/
   (exists t, In t ts /\ snd (fst out) = wire ++ [command (request t)] /\
              started (fst (fst out)) = S (started ts))).
Proof.
  cbv zeta. revert i. induction ts as [|t ts IH]; intros [|j]; cbn [resume_nth];
    try (cbn; split; [reflexivity|left; split; reflexivity]).
  - pose proof (resume_writes patience t wire inbox) as R. cbv zeta in R.
    destruct (resume patience t wire inbox) as [[t' wire'] inbox'].
    cbn [fst snd map] in *. destruct R as [Q W].
    split; [now rewrite Q|].
    unfold started. cbn [filter].
    destruct W as [[W1 W2]|(W1 & W2 & W3)].
    + left. split; [exact W1|]. rewrite W2. now destruct (has_started t).
    + right. exists t. split; [now left|]. split; [exact W1|].
      now rewrite W2, W3.
  - specialize (IH j).
    destruct (resume_nth patience j ts wire inbox) as [[ts' wire'] inbox'].
    cbn [fst snd map] in *. destruct IH as [M W].
    split; [now rewrite M|].
    unfold started in *. cbn [filter].
    destruct W as [[W1 W2]|(t0 & I0 & W1 & W2)].
    + left. split; [exact W1|]. destruct (has_started t); cbn; now rewrite W2.
    + right. exists t0. split; [now right|]. split; [exact W1|].
      destruct (has_started t); cbn; now rewrite W2.
Qed.

(** What does hold under every schedule: each line on the wire is the whole
    command of one submitted call, and there is one line per started call. *)
Lemma writes_are_whole_commands (patience : nat) (schedule : list Event)
    (requests : list Request) :
  let w := exec patience schedule (submit requests) in
  map request (tasks w) = requests /\
  List.length (written w) = started (tasks w) /\
  Forall (fun line => In line (map command requests)) (written w).
Proof.
  cbv zeta.
  assert (G : forall w,
             map request (tasks w) = requests /\
             List.length (written w) = started (tasks w) /\
             Forall (fun line => In line (map command requests)) (written w) ->
             let w' := exec patience schedule w in
             map request (tasks w') = requests /\
             List.length (written w') = started (tasks w') /\
             Forall (fun line => In line (map command requests)) (written w')).
  { induction schedule as [|e es IH]; intros w H; [exact H|].
    cbn [exec fold_left]. apply IH. clear IH.
    destruct H as (M & L & F). destruct e as [i|line]; cbn [step]; [|auto].
    pose proof (resume_nth_writes patience i (tasks w) (written w) (in_waiting w)) as R.
    cbv zeta in R.
    destruct (resume_nth patience i (tasks w) (written w) (in_waiting w))
      as [[ts' wire'] inbox'].
    cbn [fst snd tasks written] in *. destruct R as [M' W].
    split; [congruence|].
    destruct W as [[W1 W2]|(t0 & I0 & W1 & W2)]; subst wire'.
    - split; [congruence|exact F].
    - split.
      + rewrite length_app, W2, L. cbn. lia.
      + apply Forall_app. split; [exact F|]. constructor; [|constructor].
        rewrite <- M. rewrite map_map. apply (in_map (fun t => command (request t))).
        exact I0. }
  apply G. clear G. unfold submit; cbn [tasks written].
  split; [|split].
  - rewrite map_map. cbn. apply map_id.
  - unfold started. induction requests as [|q qs IH]; [reflexivity|exact IH].
  - constructor.
Qed.

(** C8 fails on the code: [_send_command] takes no lock and uses no queue.
    The motor's move writes its command and suspends in the read loop; the
    sensor read then writes its own command, so two commands are in flight
    at once; the device answers in order, the sensor caller polls first and
    takes the motor's acknowledgement, and the motor caller takes the sensor
    payload. *)
Theorem two_commands_in_flight :
  let w := exec 2000 [Resume 0; Resume 1] (submit move_and_read) in
  in_flight w = 2%nat /\
  written w = ["MOVE_FORWARD"; "READ_SENSORS"] /\
  responses
    (exec 2000 [Arrives move_answer; Resume 1; Arrives read_answer; Resume 0] w)
  = [(MotorCaller, Returned (Some read_answer));
     (SensorCaller, Returned (Some move_answer))].
Proof.
  cbv zeta. repeat split.
Qed.

End Concurrency.

(** ** Start-up and shutdown of the motor controller *)

Section MotorLifecycle.

Import Motor Lifecycle.

(** What [initialize] leaves alone, and the connection after it. *)
Lemma initialize_frame (dev : Device) (port_opens : bool) (mc : MotorController) :
  let mc1 := snd (initialize dev port_opens mc) in
  SERIAL_AVAILABLE mc1 = SERIAL_AVAILABLE mc /\
  motor_state mc1 = motor_state mc /\
  _is_emergency_stopped mc1 = _is_emergency_stopped mc /\
  (SERIAL_AVAILABLE mc = true -> port_opens = true -> connection_open mc1 = true).
Proof.
  cbv zeta. unfold initialize.
  destruct (SERIAL_AVAILABLE mc) eqn:S; cbn [negb];
    [|cbn [snd]; repeat split; intros; congruence].
  destruct (connection_open mc) eqn:O; [cbn [snd]; repeat split; intros; congruence|].
  destruct port_opens; cbn [negb]; [|cbn [snd]; repeat split; intros; congruence].
  pose proof (send_frame dev "PING" true (set_connection true mc)) as F1.
  destruct (_send_command dev "PING" true (set_connection true mc)) as [resp m1].
  cbv zeta in F1; cbn [snd] in F1. destruct F1 as (M1 & L1 & _ & _ & S1 & O1).
  cbn in M1, L1, S1, O1.
  destruct (Py.acknowledged "PONG" resp); [|cbn [snd]; repeat split; congruence].
  pose proof (send_frame dev "STOP" false m1) as F2.
  destruct (_send_command dev "STOP" false m1) as [r2 m2].
  cbv zeta in F2; cbn [snd] in F2. destruct F2 as (M2 & L2 & _ & _ & S2 & O2).
  pose proof (send_frame dev (set_speed_command (base_speed m2)) false m2) as F3.
  destruct (_send_command dev (set_speed_command (base_speed m2)) false m2) as [r3 m3].
  cbv zeta in F3; cbn [snd] in *. destruct F3 as (M3 & L3 & _ & _ & S3 & O3).
  repeat split; congruence.
Qed.

(** X1: a second [initialize] after one that opened the port returns [True] at
    once: no handshake, nothing written, whatever the first one returned. *)
Theorem initialize_again_skips_the_handshake (dev1 dev2 : Device) (port_opens : bool)
    (mc : MotorController) :
  let mc1 := snd (initialize dev1 true mc) in
  initialize dev2 port_opens mc1 = (true, mc1) /\
  (SERIAL_AVAILABLE mc = true -> connection_open mc1 = true).
Proof.
  cbv zeta.
  destruct (initialize_frame dev1 true mc) as (S1 & _ & _ & O1).
  set (mc1 := snd (initialize dev1 true mc)) in *.
  split; [|auto].
  unfold initialize. rewrite S1.
  destruct (SERIAL_AVAILABLE mc); cbn [negb]; [|reflexivity].
  now rewrite O1.
Qed.

(** X2: the handshake: on a closed connection whose port opens, to a device that
    takes every write, [initialize] returns [True] exactly when the answer
    to PING contains PONG; it then has written PING, STOP and
    [SET_SPEED:<base_speed>], and otherwise PING alone.  The connection is
    open afterwards in both cases, and neither the motor state nor the latch
    is touched. *)
Theorem initialize_handshake (dev : Device) (mc : MotorController) :
  SERIAL_AVAILABLE mc = true ->
  connection_open mc = false ->
  (forall n c, dev n c <> WriteError) ->
  let answer := fst (_send_command dev "PING" true (set_connection true mc)) in
  let out := initialize dev true mc in
  fst out = Py.acknowledged "PONG" answer /\
  written (snd out) =
    (written mc ++
     if fst out then ["PING"; "STOP"; set_speed_command (base_speed mc)]
     else ["PING"])%list /\
  connection_open (snd out) = true /\
  motor_state (snd out) = motor_state mc /\
  _is_emergency_stopped (snd out) = _is_emergency_stopped mc.
Proof.
  intros S O W. cbv zeta. unfold initialize. rewrite S, O. cbn [negb].
  assert (G : forall c m, SERIAL_AVAILABLE m = true -> connection_open m = true ->
                          goes_out dev c m = true).
  { intros c m Sm Om. unfold goes_out. rewrite Sm, Om. cbn.
    specialize (W (exchanges m) c). now destruct (dev (exchanges m) c). }
  pose proof (send_frame dev "PING" true (set_connection true mc)) as F1.
  pose proof (send_written dev "PING" true (set_connection true mc)) as W1.
  rewrite G in W1 by (cbn; auto).
  destruct (_send_command dev "PING" true (set_connection true mc)) as [resp m1].
  cbv zeta in F1; cbn [fst snd] in *.
  destruct F1 as (M1 & L1 & _ & B1 & S1 & O1). cbn in M1, L1, B1, S1, O1, W1.
  destruct (Py.acknowledged "PONG" resp).
  - pose proof (send_frame dev "STOP" false m1) as F2.
    pose proof (send_written dev "STOP" false m1) as W2.
    rewrite G in W2 by congruence.
    destruct (_send_command dev "STOP" false m1) as [r2 m2].
    cbv zeta in F2; cbn [snd] in *. destruct F2 as (M2 & L2 & _ & B2 & S2 & O2).
    pose proof (send_frame dev (set_speed_command (base_speed m2)) false m2) as F3.
    pose proof (send_written dev (set_speed_command (base_speed m2)) false m2) as W3.
    rewrite G in W3 by congruence.
    destruct (_send_command dev (set_speed_command (base_speed m2)) false m2) as [r3 m3].
    cbv zeta in F3; cbn [fst snd] in *. destruct F3 as (M3 & L3 & _ & B3 & S3 & O3).
    repeat split; try congruence.
    rewrite W3, W2, W1, B2, B1, <- !app_assoc. reflexivity.
  - cbn [fst snd]. repeat split; congruence.
Qed.

(** X3: after [shutdown] of a controller in serial mode the connection is
    closed: every later move, [stop] and [set_speed] returns [False] and
    writes nothing. *)
Theorem nothing_is_sent_after_shutdown (dev dev' : Device) (now now' : float)
    (mc : MotorController) :
  SERIAL_AVAILABLE mc = true ->
  let mc' := shutdown dev now mc in
  connection_open mc' = false /\
  (forall d speed, fst (move d dev' now' speed mc') = false /\
                   written (snd (move d dev' now' speed mc')) = written mc') /\
  (fst (stop dev' now' mc') = false /\ written (snd (stop dev' now' mc')) = written mc') /\
  (forall speed, fst (set_speed dev' speed mc') = false /\
                 written (snd (set_speed dev' speed mc')) = written mc').
Proof.
  intros S mc'.
  assert (S' : SERIAL_AVAILABLE mc' = true /\ connection_open mc' = false).
  { subst mc'. unfold shutdown, stop.
    pose proof (send_frame dev "STOP" true mc) as F.
    destruct (_send_command dev "STOP" true mc) as [r m1].
    cbv zeta in F; cbn [snd] in F. destruct F as (_ & _ & _ & _ & S1 & O1).
    destruct (Py.acknowledged "ACTION:STOP" r); cbn [snd set_motor_state connection_open];
      destruct (connection_open m1) eqn:O; cbn; rewrite ?O; split; congruence. }
  destruct S' as [S' O'].
  assert (N : forall c e m, SERIAL_AVAILABLE m = true -> connection_open m = false ->
                            _send_command dev' c e m = (None, m)).
  { intros c e m Sm Om. unfold _send_command. now rewrite Sm, Om. }
  split; [exact O'|]. split; [|split].
  - intros d speed. unfold move.
    destruct (_is_emergency_stopped mc'); [now split|]. cbv zeta.
    destruct (negb (effective_speed speed mc' =? Motor.speed (motor_state mc'))%Z).
    + rewrite (N _ _ mc' S' O'). rewrite N by (cbn; assumption). cbn. now split.
    + rewrite (N _ _ mc' S' O'). cbn. now split.
  - unfold stop. rewrite (N _ _ mc' S' O'). cbn. now split.
  - intros speed. unfold set_speed. rewrite (N _ _ mc' S' O'). cbn. now split.
Qed.

End MotorLifecycle.

(** ** Stop, refused acknowledgements and simulation mode *)

Section MotorOutcomes.

Import Motor Lifecycle.

Variable dev : Device.

(** X4: [stop] never looks at the latch: it does the same with the latch set or
    clear.  When it returns [True] the motor is recorded as stopped; when it
    returns [False] the motor state is as before.  So an [emergency_stop]
    that returns [False] leaves a latched controller whose state may still
    say it is moving. *)
Theorem stop_is_never_refused (now : float) (latch : bool) (mc : MotorController) :
  stop dev now (set_latch latch mc)
  = (fst (stop dev now mc), set_latch latch (snd (stop dev now mc))) /\
  (fst (stop dev now mc) = true ->
   motor_state (snd (stop dev now mc))
   = mkMotorState STOP (Motor.speed (motor_state mc)) false now) /\
  (fst (stop dev now mc) = false ->
   motor_state (snd (stop dev now mc)) = motor_state mc) /\
  (fst (emergency_stop dev now mc) = false ->
   motor_state (snd (emergency_stop dev now mc)) = motor_state mc /\
   _is_emergency_stopped (snd (emergency_stop dev now mc)) = true).
Proof.
  assert (E : forall m,
             (fst (stop dev now m) = true ->
              motor_state (snd (stop dev now m))
              = mkMotorState STOP (Motor.speed (motor_state m)) false now) /\
             (fst (stop dev now m) = false ->
              motor_state (snd (stop dev now m)) = motor_state m)).
  { intros m. unfold stop.
    pose proof (send_frame dev "STOP" true m) as F.
    destruct (_send_command dev "STOP" true m) as [r m1].
    cbv zeta in F; cbn [snd] in F. destruct F as (M & _).
    destruct (Py.acknowledged "ACTION:STOP" r); cbn [fst snd];
      split; intros H; try discriminate H; cbn; congruence. }
  split; [|split; [apply E|split; [apply E|]]].
  - destruct mc as [ms mx bs lt sa co wr ex].
    unfold stop, _send_command, set_latch; cbn.
    destruct sa; cbn; [|reflexivity].
    destruct co; cbn; [|reflexivity].
    destruct (dev ex "STOP") as [| |s]; cbn; try reflexivity.
    destruct (s =? "")%string eqn:Es; cbn; rewrite ?Es; cbn; [reflexivity|].
    now destruct (Py.contains "ACTION:STOP" s).
  - intros H. split; [|apply emergency_stop_latch].
    unfold emergency_stop in *. now rewrite (proj2 (E _) H).
Qed.

(** X5: a move that is not refused by the latch is applied in part when
    it fails.  The speed field holds the effective speed when the move
    returns, whatever it returns, and the latch stays clear.  When it
    returns [True] the direction, the moving flag and the command time are
    recorded; when it returns [False] they are left as they were, while the
    speed has already been changed. *)
Theorem unacknowledged_move_keeps_the_direction (d : MotorDirection) (now : float)
    (speed : option Z) (mc : MotorController) :
  _is_emergency_stopped mc = false ->
  let out := move d dev now speed mc in
  let eff := effective_speed speed mc in
  Motor.speed (motor_state (snd out)) = eff /\
  _is_emergency_stopped (snd out) = false /\
  (fst out = true -> motor_state (snd out) = mkMotorState d eff true now) /\
  (fst out = false ->
   motor_state (snd out)
   = mkMotorState (direction (motor_state mc)) eff (is_moving (motor_state mc))
       (last_command_time (motor_state mc))).
Proof.
  intros L. cbv zeta.
  split; [exact (move_records_effective dev d now speed mc L)|].
  split; [rewrite move_latch; exact L|].
  rewrite (move_unfold dev d now speed mc L). cbv zeta.
  pose proof (send_frame dev (value d) true (after_speed dev speed mc)) as (M & _).
  pose proof (after_speed_speed dev speed mc) as Sp.
  assert (A : motor_state (after_speed dev speed mc)
              = mkMotorState (direction (motor_state mc)) (effective_speed speed mc)
                  (is_moving (motor_state mc)) (last_command_time (motor_state mc))).
  { unfold after_speed.
    destruct (Z.eqb_spec (effective_speed speed mc) (Motor.speed (motor_state mc)))
      as [E|E]; cbn [negb].
    - rewrite E. now destruct (motor_state mc).
    - pose proof (send_frame dev (set_speed_command (effective_speed speed mc))
                    false mc) as (M' & _).
      cbn [motor_state set_motor_state]. now rewrite M'. }
  destruct (Py.acknowledged _ _); cbn [fst snd];
    split; intros H; try discriminate H.
  - cbn. now rewrite M, Sp.
  - now rewrite M, A.
Qed.

(** The text of an [int] is made of digits and the minus sign. *)
Lemma str_is_numeric (n : Z) : Text.all_chars Text.numeric (Py.str n) = true.
Proof.
  assert (U : forall u, Text.all_chars Text.numeric (NilEmpty.string_of_uint u) = true).
  { induction u; cbn; auto. }
  unfold Py.str, NilZero.string_of_int, NilZero.string_of_uint.
  destruct (Z.to_int n) as [u|u]; destruct u; cbn; auto; apply U.
Qed.

(** A word that starts with a letter does not occur in a numeric text. *)
Lemma not_in_numeric (c : ascii) (word s : string) :
  Text.numeric c = false ->
  Text.all_chars Text.numeric s = true ->
  Py.contains (String c word) s = false.
Proof.
  intros C. induction s as [|a s IH]; intros N; cbn.
  - reflexivity.
  - cbn in N. apply andb_true_iff in N as [Na Ns].
    destruct (ascii_dec c a) as [->|_]; [congruence|].
    now apply IH.
Qed.

(** In simulation mode a [SET_SPEED] command is answered as such. *)
Lemma simulation_answers_set_speed (n : Z) :
  simulation_response (set_speed_command n) true = "ACTION:SPEED_SET:50".
Proof.
  unfold simulation_response, set_speed_command.
  pose proof (str_is_numeric n) as N.
  generalize dependent (Py.str n). intros s N.
  cbn.
  rewrite !not_in_numeric by (exact N || reflexivity).
  reflexivity.
Qed.

(** X6: without pyserial (simulation mode) nothing is written, every move that
    the latch does not refuse succeeds and records the direction, [stop]
    succeeds, and [set_speed] succeeds and records the clamped speed. *)
Theorem simulation_mode_always_acknowledges (now : float) (mc : MotorController) :
  SERIAL_AVAILABLE mc = false ->
  (forall d speed,
     _is_emergency_stopped mc = false ->
     move d dev now speed mc
     = (true, set_motor_state (mkMotorState d (effective_speed speed mc) true now) mc)) /\
  stop dev now mc
  = (true, set_motor_state (mkMotorState STOP (Motor.speed (motor_state mc)) false now) mc) /\
  (forall speed,
     set_speed dev speed mc
     = (true, set_motor_state
                (mkMotorState (direction (motor_state mc))
                   (Z.max 0 (Z.min speed (max_speed mc)))
                   (is_moving (motor_state mc)) (last_command_time (motor_state mc))) mc)).
Proof.
  intros S.
  assert (Send : forall c e m, SERIAL_AVAILABLE m = false ->
                   _send_command dev c e m = (Some (simulation_response c e), m)).
  { intros c e m Sm. unfold _send_command. now rewrite Sm. }
  split; [|split].
  - intros d speed L. unfold move. rewrite L. cbv zeta.
    destruct (Z.eqb_spec (effective_speed speed mc) (Motor.speed (motor_state mc)))
      as [E|E]; cbn [negb].
    + rewrite (Send _ _ mc S). rewrite E.
      now destruct d.
    + rewrite (Send _ _ mc S). rewrite Send by exact S.
      now destruct d.
  - unfold stop. now rewrite (Send _ _ mc S).
  - intros speed. unfold set_speed. rewrite (Send _ _ mc S).
    now rewrite simulation_answers_set_speed.
Qed.

(** X7: [move_with_emotion], when it returns at all, never passes a speed below
    10 to the move, also when [max_speed] is below 10; the speed recorded by
    a move that the latch does not refuse is the emotional speed, between 10
    and the larger of 10 and [max_speed].  An emotion the configuration does
    not list gets the multiplier 1.0.  Direction STOP goes to [stop],
    whatever the latch. *)
Theorem emotional_speed_is_clamped (now : float) (emotions : Emotions)
    (direction : MotorDirection) (emotion_state : string) (mc : MotorController)
    (ok : bool) (mc' : MotorController) :
  move_with_emotion dev now false emotions direction emotion_state mc = Some (ok, mc') ->
  (exists s,
     emotional_speed mc (speed_multiplier emotions emotion_state) = Some s /\
     10 <= s <= Z.max 10 (max_speed mc) /\
     (direction <> STOP -> _is_emergency_stopped mc = false ->
      Motor.speed (motor_state mc') = s) /\
     (direction <> STOP -> (ok, mc') = move direction dev now (Some s) mc)) /\
  (direction = STOP -> (ok, mc') = stop dev now mc) /\
  (get emotion_state emotions = None ->
   speed_multiplier emotions emotion_state = FloatMultiplier 1%float).
Proof.
  unfold move_with_emotion. intros H.
  destruct (emotional_speed mc (speed_multiplier emotions emotion_state)) as [s|] eqn:E;
    [|discriminate H].
  injection H as H.
  assert (B : 10 <= s <= Z.max 10 (max_speed mc)).
  { unfold emotional_speed in E.
    destruct (scaled_speed (base_speed mc) (speed_multiplier emotions emotion_state));
      [|discriminate E].
    injection E as <-. lia. }
  assert (Mv : direction <> STOP -> (ok, mc') = move direction dev now (Some s) mc).
  { intros N. destruct direction; try contradiction; symmetry; exact H. }
  split; [|split].
  - exists s. split; [reflexivity|]. split; [exact B|]. split; [|exact Mv].
    intros N L. specialize (Mv N).
    pose proof (move_records_effective dev direction now (Some s) mc L) as R.
    rewrite <- Mv in R. cbn [snd] in R. rewrite R.
    rewrite effective_speed_formula.
    destruct (Z.eqb_spec s 0); [lia|reflexivity].
  - intros ->. symmetry. exact H.
  - intros G. unfold speed_multiplier. now rewrite G.
Qed.

End MotorOutcomes.

(** ** The LED controller on the shared connection *)

Section LedFacts.

Import Led.

Variable dev : Motor.Device.

(** X8: in simulation mode no LED command is ever acknowledged: the canned
    answers know no [LED_PATTERN], so the answer is OK.  [set_expression]
    returns [False] for every expression and the current expression never
    changes; [initialize] returns [False]. *)
Theorem led_fails_in_simulation_mode (b : Board) :
  Motor.SERIAL_AVAILABLE (serial b) = false ->
  (forall e,
     fst (set_expression dev e b) = false /\
     current_expression (led (snd (set_expression dev e b))) = current_expression (led b) /\
     serial (snd (set_expression dev e b)) = serial b) /\
  (forall flush_raises, fst (initialize dev flush_raises b) = false) /\
  (forall es, current_expression (led (play dev es b)) = current_expression (led b)).
Proof.
  intros S.
  assert (E : forall e b0, Motor.SERIAL_AVAILABLE (serial b0) = false ->
                fst (set_expression dev e b0) = false /\
                current_expression (led (snd (set_expression dev e b0)))
                = current_expression (led b0) /\
                serial (snd (set_expression dev e b0)) = serial b0).
  { intros e b0 S0. unfold set_expression.
    destruct (arduino_serial (led b0)); cbn [negb]; [|now cbn].
    unfold Motor._send_command. rewrite S0. cbn [negb].
    now destruct e. }
  split; [intros e; now apply E|]. split.
  - intros [|]; unfold initialize; [reflexivity|]. now apply E.
  - intros es. revert b S. induction es as [|e es IH]; intros b S; [reflexivity|].
    cbn [play]. destruct (E e b S) as (_ & C & M).
    rewrite IH by congruence. exact C.
Qed.

(** What one [set_expression] does to the motor controller it sends
    through: at most its own command line goes out, and nothing else of the
    controller changes. *)
Lemma set_expression_frame (e : LEDExpression) (b : Board) :
  let b' := snd (set_expression dev e b) in
  Motor.motor_state (serial b') = Motor.motor_state (serial b) /\
  Motor._is_emergency_stopped (serial b') = Motor._is_emergency_stopped (serial b) /\
  arduino_serial (led b') = arduino_serial (led b) /\
  (Motor.written (serial b') = Motor.written (serial b) \/
   Motor.written (serial b') = (Motor.written (serial b) ++ [pattern_command e])%list).
Proof.
  cbv zeta. unfold set_expression.
  destruct (arduino_serial (led b)) eqn:A; cbn [negb]; [|cbn; auto].
  pose proof (send_frame dev (pattern_command e) true (serial b)) as (M & L & _).
  pose proof (send_written dev (pattern_command e) true (serial b)) as W.
  destruct (Motor._send_command dev (pattern_command e) true (serial b)) as [r m1].
  cbn [snd] in *.
  assert (W' : Motor.written m1 = Motor.written (serial b) \/
               Motor.written m1 = (Motor.written (serial b) ++ [pattern_command e])%list).
  { rewrite W. destruct (Motor.goes_out dev (pattern_command e) (serial b));
      [now right|left; apply app_nil_r]. }
  destruct (Py.acknowledged "ACTION:LED_PATTERN" r); cbn; auto.
Qed.

Lemma repeat_pair_length (x y : LEDExpression) (n : nat) :
  List.length (repeat_pair x y n) = (2 * n)%nat.
Proof. induction n as [|n IH]; cbn [repeat_pair List.length]; lia. Qed.

Lemma repeat_pair_members (x y e : LEDExpression) (n : nat) :
  In e (repeat_pair x y n) -> e = x \/ e = y.
Proof.
  induction n as [|n IH]; cbn [repeat_pair In]; [contradiction|].
  intros [H|[H|H]]; auto.
Qed.

(** What a run of [set_expression] calls does to the motor controller. *)
Lemma play_frame (es : list LEDExpression) (b : Board) :
  Motor.motor_state (serial (play dev es b)) = Motor.motor_state (serial b) /\
  Motor._is_emergency_stopped (serial (play dev es b))
  = Motor._is_emergency_stopped (serial b) /\
  exists lines,
    Motor.written (serial (play dev es b)) = (Motor.written (serial b) ++ lines)%list /\
    (List.length lines <= List.length es)%nat /\
    Forall (fun line => exists e, In e es /\ line = pattern_command e) lines.
Proof.
  revert b. induction es as [|e es IH]; intros b; cbn [play].
  - repeat split. exists []. rewrite app_nil_r. repeat split; auto.
  - destruct (set_expression_frame e b) as (M & L & _ & W).
    destruct (IH (snd (set_expression dev e b))) as (M' & L' & lines & W' & Len & F).
    split; [congruence|]. split; [congruence|].
    assert (F' : Forall (fun line => exists e0, In e0 (e :: es) /\ line = pattern_command e0)
                   lines).
    { eapply Forall_impl; [|exact F]. intros line (e0 & I0 & E0).
      exists e0. split; [now right|exact E0]. }
    destruct W as [W|W]; rewrite W in W'.
    + exists lines. split; [exact W'|]. split; [cbn [List.length]; lia|exact F'].
    + exists (pattern_command e :: lines). rewrite <- app_assoc in W'.
      split; [exact W'|]. split; [cbn [List.length]; lia|].
      constructor; [|exact F']. exists e. split; [now left|reflexivity].
Qed.

Lemma serial_set_animating (a : bool) (b : Board) :
  serial (set_animating a b) = serial b.
Proof. reflexivity. Qed.

Lemma led_set_animating (a : bool) (b : Board) :
  is_animating (led (set_animating a b)) = a.
Proof. reflexivity. Qed.

Lemma emergency_pattern_eq (b : Board) :
  emergency_pattern dev b
  = (true, set_animating false
             (play dev (repeat_pair ALERT OFF 10)
                (set_animating true (mkBoard (_stop_animation (led b)) (serial b))))).
Proof. reflexivity. Qed.

(** X9: the LED sequences share the motor controller's connection and touch
    nothing else of it: motor state and latch are as before, and the lines
    they add to the wire are pattern commands of the sequence, at most one
    per step.  [emergency_pattern] thus adds at most 20 lines, each
    [LED_PATTERN:7] or [LED_PATTERN:0], and returns [True] whatever was
    acknowledged. *)
Theorem led_sequences_leave_the_motor_alone (es : list LEDExpression) (b : Board) :
  (Motor.motor_state (serial (play dev es b)) = Motor.motor_state (serial b) /\
   Motor._is_emergency_stopped (serial (play dev es b))
   = Motor._is_emergency_stopped (serial b) /\
   exists lines,
     Motor.written (serial (play dev es b)) = (Motor.written (serial b) ++ lines)%list /\
     (List.length lines <= List.length es)%nat /\
     Forall (fun line => exists e, In e es /\ line = pattern_command e) lines) /\
  (fst (emergency_pattern dev b) = true /\
   is_animating (led (snd (emergency_pattern dev b))) = false /\
   Motor.motor_state (serial (snd (emergency_pattern dev b)))
   = Motor.motor_state (serial b) /\
   Motor._is_emergency_stopped (serial (snd (emergency_pattern dev b)))
   = Motor._is_emergency_stopped (serial b) /\
   exists lines,
     Motor.written (serial (snd (emergency_pattern dev b)))
     = (Motor.written (serial b) ++ lines)%list /\
     (List.length lines <= 20)%nat /\
     Forall (fun line => line = "LED_PATTERN:7" \/ line = "LED_PATTERN:0") lines).
Proof.
  split; [apply play_frame|].
  pose proof (play_frame (repeat_pair ALERT OFF 10)
                (set_animating true (mkBoard (_stop_animation (led b)) (serial b))))
    as (M & L & lines & W & Len & F).
  rewrite repeat_pair_length in Len.
  rewrite serial_set_animating in M, L, W. cbn [serial] in M, L, W.
  rewrite emergency_pattern_eq. cbn [fst snd].
  rewrite serial_set_animating, led_set_animating.
  split; [reflexivity|]. split; [reflexivity|].
  split; [exact M|]. split; [exact L|].
  exists lines. split; [exact W|]. split; [exact Len|].
  eapply Forall_impl; [|exact F]. intros line (e & I & ->).
  destruct (repeat_pair_members _ _ _ _ I) as [->| ->]; [left|right]; reflexivity.
Qed.

End LedFacts.

(** ** The monitor's books along histories of calls *)

Section Books.

Import Safety History Tally.
Local Open Scope list_scope.

Variable dev : Motor.Device.

Lemma alert_eqb_eq (a b : SafetyAlert) : alert_eqb a b = true <-> a = b.
Proof. destruct a, b; cbn; split; intros H; try reflexivity; discriminate H. Qed.

Lemma active_in (a : SafetyAlert) (alerts : list SafetyAlert) :
  active a alerts = true <-> In a alerts.
Proof.
  unfold active. rewrite existsb_exists. split.
  - intros (b & I & E). apply alert_eqb_eq in E. now subst.
  - intros I. exists a. split; [exact I|]. now apply alert_eqb_eq.
Qed.

Lemma in_remove (a b : SafetyAlert) (alerts : list SafetyAlert) :
  In a (remove b alerts) -> In a alerts.
Proof.
  induction alerts as [|c alerts IH]; cbn; [auto|].
  destruct (alert_eqb b c); cbn; intuition.
Qed.

Lemma remove_keeps_others (a b : SafetyAlert) (alerts : list SafetyAlert) :
  a <> b -> In a alerts -> In a (remove b alerts).
Proof.
  intros N. induction alerts as [|c alerts IH]; cbn; [auto|].
  destruct (alert_eqb b c) eqn:E.
  - apply alert_eqb_eq in E. subst c. intros [H|H]; [congruence|exact H].
  - cbn. intuition.
Qed.

Lemma nodup_remove (b : SafetyAlert) (alerts : list SafetyAlert) :
  NoDup alerts -> NoDup (remove b alerts).
Proof.
  induction 1 as [|c alerts N D IH]; cbn; [constructor|].
  destruct (alert_eqb b c); [exact D|].
  constructor; [|exact IH]. intros I. apply N. eapply in_remove, I.
Qed.

Lemma nodup_raise (a : SafetyAlert) (alerts : list SafetyAlert) :
  NoDup alerts -> NoDup (if active a alerts then alerts else alerts ++ [a]).
Proof.
  intros D. destruct (active a alerts) eqn:E; [exact D|].
  apply NoDup_app; [exact D|repeat constructor; auto|].
  intros x I [<-|[]]. apply active_in in I. congruence.
Qed.

Lemma bookkeeping_refl (r : Robot) : bookkeeping r r.
Proof. unfold bookkeeping, counters_agree. repeat split; auto; lia. Qed.

Lemma bookkeeping_same_monitor (r r' : Robot) :
  monitor r' = monitor r -> bookkeeping r r'.
Proof.
  intros E. unfold bookkeeping, counters_agree, status. rewrite E.
  repeat split; auto; lia.
Qed.

Lemma bookkeeping_trans (r0 r1 r2 : Robot) :
  bookkeeping r0 r1 -> bookkeeping r1 r2 -> bookkeeping r0 r2.
Proof.
  unfold bookkeeping, counters_agree.
  intros (N1 & C1 & E1 & L1) (N2 & C2 & E2 & L2). repeat split; auto; lia.
Qed.

Lemma trigger_books (now : float) (alert : SafetyAlert) (r : Robot) :
  bookkeeping r (snd (trigger_emergency_stop dev now alert r)) /\
  emergency_stops_count (status (snd (trigger_emergency_stop dev now alert r)))
  = emergency_stops_count (status r) + 1.
Proof.
  unfold bookkeeping, counters_agree, trigger_emergency_stop, status; cbv zeta.
  cbn [snd monitor safety_status active_alerts emergency_stops_count emergency_stops
       monitoring_loops].
  repeat split; try lia. apply nodup_raise.
Qed.

Lemma check_sensors_books (t : Tick) (r : Robot) :
  bookkeeping r (_check_sensors dev (distance t) (wall_at_reading t) (loop_time t) r) /\
  monitoring_loops
    (monitor (_check_sensors dev (distance t) (wall_at_reading t) (loop_time t) r))
  = monitoring_loops (monitor r).
Proof.
  unfold _check_sensors; cbv zeta.
  destruct (sensor_manager (monitor r)); [|split; [apply bookkeeping_refl|reflexivity]].
  destruct (distance t) as [d|].
  - set (r0 := mkRobot _ (motor r)).
    assert (B0 : bookkeeping r r0 /\
                 monitoring_loops (monitor r0) = monitoring_loops (monitor r)).
    { split; [|reflexivity]. unfold bookkeeping, counters_agree, status. subst r0.
      cbn. repeat split; auto; lia. }
    destruct B0 as [B0 L0].
    destruct (PrimFloat.leb d (emergency_stop_distance (monitor r)));
      [|destruct (PrimFloat.leb d (min_obstacle_distance (monitor r)))].
    + unfold _handle_emergency_obstacle.
      destruct (negb _); [|now split].
      split; [eapply bookkeeping_trans; [exact B0|apply trigger_books]|].
      rewrite <- L0. reflexivity.
    + unfold _handle_warning_obstacle; cbv zeta.
      destruct (level_eqb _ _); [|now split].
      split; [|exact L0]. eapply bookkeeping_trans; [exact B0|].
      unfold bookkeeping, counters_agree, status. cbn. repeat split; auto; lia.
    + split; [|exact L0]. eapply bookkeeping_trans; [exact B0|].
      unfold _clear_obstacle_alerts, bookkeeping, counters_agree, status; cbv zeta.
      destruct (active OBSTACLE_TOO_CLOSE (active_alerts (safety_status (monitor r0))));
        match goal with
        | |- context [if ?c then with_level SAFE ?s else _] => destruct c
        end; cbn; repeat split; auto; try lia; apply nodup_remove.
  - unfold _handle_sensor_failure; cbv zeta.
    destruct (active SENSOR_FAILURE (active_alerts (safety_status (monitor r)))) eqn:A;
      cbn [negb]; [split; [apply bookkeeping_refl|reflexivity]|].
    split; [|reflexivity].
    unfold bookkeeping, counters_agree, status. cbn. repeat split; auto; try lia.
    intros D. pose proof (nodup_raise SENSOR_FAILURE _ D) as D'.
    now rewrite A in D'.
Qed.

Lemma check_communication_books (wall : float) (r : Robot) :
  bookkeeping r (_check_communication wall r) /\
  monitoring_loops (monitor (_check_communication wall r)) = monitoring_loops (monitor r).
Proof.
  unfold _check_communication; cbv zeta.
  destruct (stale _ _); [|split; [apply bookkeeping_refl|reflexivity]].
  destruct (active COMMUNICATION_LOST (active_alerts (safety_status (monitor r)))) eqn:A;
    cbn [negb]; [split; [apply bookkeeping_refl|reflexivity]|].
  split; [|reflexivity].
  unfold bookkeeping, counters_agree, status. cbn. repeat split; auto; try lia.
  intros D. pose proof (nodup_raise COMMUNICATION_LOST _ D) as D'.
  now rewrite A in D'.
Qed.

Lemma tick_books (t : Tick) (r : Robot) :
  bookkeeping r (tick dev t r) /\
  monitoring_loops (monitor (tick dev t r)) = monitoring_loops (monitor r) + 1.
Proof.
  destruct (check_sensors_books t r) as [B1 L1].
  destruct (check_communication_books (wall_at_check t)
              (_check_sensors dev (distance t) (wall_at_reading t) (loop_time t) r))
    as [B2 L2].
  pose proof (bookkeeping_trans _ _ _ B1 B2) as (N & C & E & L).
  unfold tick; cbv zeta. unfold bookkeeping, counters_agree, status in *.
  cbn [monitor safety_status monitoring_loops emergency_stops].
  repeat split; auto; lia.
Qed.

(** One call and the books. *)
Lemma call_books (c : Call) (r : Robot) :
  bookkeeping r (call dev c r) /\
  monitoring_loops (monitor (call dev c r))
  = monitoring_loops (monitor r) + (if is_tick c then 1 else 0).
Proof.
  destruct c; cbn [call is_tick]; rewrite ?Z.add_0_r;
    try (split; [now apply bookkeeping_same_monitor|reflexivity]).
  - apply tick_books.
  - split; [apply trigger_books|reflexivity].
  - unfold resume_after_emergency; cbv zeta.
    destruct (sensor_manager (monitor r) && _); cbn [snd];
      [split; [apply bookkeeping_refl|reflexivity]|].
    split; [|reflexivity].
    unfold bookkeeping, counters_agree, status. cbn. repeat split; try lia. constructor.
Qed.

(** X10: along every history of calls, resumes included: an alert is never listed
    twice; the status counter and the statistics counter of emergency stops
    move in step and never go down (a resume does not reset them); and the
    loop counter grows by exactly the number of ticks. *)
Theorem books_are_kept (calls : list Call) (r : Robot) :
  (NoDup (active_alerts (status r)) ->
   NoDup (active_alerts (status (run dev calls r)))) /\
  emergency_stops_count (status (run dev calls r)) - emergency_stops_count (status r)
  = emergency_stops (monitor (run dev calls r)) - emergency_stops (monitor r) /\
  emergency_stops_count (status r) <= emergency_stops_count (status (run dev calls r)) /\
  monitoring_loops (monitor (run dev calls r)) = monitoring_loops (monitor r) + ticks calls.
Proof.
  assert (G : bookkeeping r (run dev calls r) /\
              monitoring_loops (monitor (run dev calls r))
              = monitoring_loops (monitor r) + ticks calls).
  { revert r. induction calls as [|c calls IH]; intros r.
    - split; [apply bookkeeping_refl|]. unfold ticks. cbn. lia.
    - cbn [run fold_left]. destruct (call_books c r) as [B1 L1].
      destruct (IH (call dev c r)) as [B2 L2]. fold (run dev calls (call dev c r)) in *.
      split; [eapply bookkeeping_trans; eassumption|].
      rewrite L2, L1. unfold ticks. cbn [filter].
      destruct (is_tick c); cbn [List.length]; lia. }
  destruct G as [(N & C & E & _) L]. unfold counters_agree in C. auto.
Qed.

End Books.

(** ** What only a resume undoes *)

Section Holding.

Import Safety History Tally.
Local Open Scope list_scope.

Variable dev : Motor.Device.

Lemma holding_refl (r : Robot) : holding r r.
Proof. unfold holding. auto. Qed.

Lemma holding_trans (r0 r1 r2 : Robot) : holding r0 r1 -> holding r1 r2 -> holding r0 r2.
Proof. unfold holding. intros [L1 A1] [L2 A2]. split; auto. Qed.

Lemma trigger_holds (now : float) (alert : SafetyAlert) (r : Robot) :
  holding r (snd (trigger_emergency_stop dev now alert r)).
Proof.
  destruct (trigger_establishes dev now alert r) as (_ & _ & A & _ & _ & _ & L).
  split; [exact L|]. intros a _. apply A.
Qed.

Lemma check_sensors_holds (t : Tick) (r : Robot) :
  holding r (_check_sensors dev (distance t) (wall_at_reading t) (loop_time t) r).
Proof.
  unfold _check_sensors; cbv zeta.
  destruct (sensor_manager (monitor r)); [|apply holding_refl].
  destruct (distance t) as [d|].
  - set (r0 := mkRobot _ (motor r)).
    assert (H0 : holding r r0) by (split; auto).
    destruct (PrimFloat.leb d (emergency_stop_distance (monitor r)));
      [|destruct (PrimFloat.leb d (min_obstacle_distance (monitor r)))].
    + unfold _handle_emergency_obstacle. destruct (negb _); [|exact H0].
      eapply holding_trans; [exact H0|apply trigger_holds].
    + unfold _handle_warning_obstacle; cbv zeta.
      destruct (level_eqb _ _); [|exact H0]. split; auto.
    + eapply holding_trans; [exact H0|].
      unfold _clear_obstacle_alerts, holding, latched, status; cbv zeta.
      split; [auto|]. intros a N A.
      destruct (active OBSTACLE_TOO_CLOSE (active_alerts (safety_status (monitor r0))));
        match goal with
        | |- context [if ?c then with_level SAFE ?s else _] => destruct c
        end; cbn; try exact A;
        apply active_in, remove_keeps_others; auto; now apply active_in.
  - unfold _handle_sensor_failure; cbv zeta.
    destruct (negb _); [|apply holding_refl].
    unfold holding, latched, status. cbn [motor monitor with_status safety_status
                                          with_level with_alerts active_alerts].
    split.
    + intros L. unfold Motor.is_emergency_stopped in *.
      destruct (motor_controller (monitor r)); cbn [andb]; [|exact L].
      rewrite L. exact L.
    + intros a _ A. now rewrite active_app, A.
Qed.

Lemma tick_holds (t : Tick) (r : Robot) : holding r (tick dev t r).
Proof.
  pose proof (check_sensors_holds t r) as H1.
  set (r1 := _check_sensors dev (distance t) (wall_at_reading t) (loop_time t) r) in *.
  destruct (check_communication_effect (wall_at_check t) r1) as (M & _ & _ & A).
  destruct (tick_projections dev t r) as (St & Mo & _). fold r1 in St, Mo.
  destruct H1 as [L1 A1]. unfold holding, latched in *. rewrite St, Mo, M.
  split; auto.
Qed.

(** One call other than a resume. *)
Lemma call_holds (c : Call) (r : Robot) :
  is_resume c = false -> holding r (call dev c r).
Proof.
  intros N. destruct c; cbn [call]; try discriminate N.
  - apply tick_holds.
  - apply trigger_holds.
  - split; [|auto]. unfold latched, on_motor; cbn [motor]. intros L.
    unfold Motor.is_emergency_stopped in *. now rewrite move_latch.
  - split; [|auto]. unfold latched, on_motor; cbn [motor]. intros L.
    unfold Motor.is_emergency_stopped in *. now rewrite stop_latch.
  - split; [|auto]. unfold latched, on_motor; cbn [motor]. intros L.
    unfold Motor.is_emergency_stopped in *. now rewrite set_speed_latch.
  - split; [|auto]. unfold latched, on_motor; cbn [motor]. intros _.
    apply emergency_stop_latch.
Qed.

(** X11: along every history without a resume (neither the monitor's
    [resume_after_emergency] nor the motor controller's
    [resume_from_emergency]): a set latch stays set, so every directional
    move is still refused at the end; and every active alert other than
    [OBSTACLE_TOO_CLOSE] stays active, whatever the sensor reads later. *)
Theorem only_a_resume_clears (calls : list Call) (r : Robot) :
  forallb (fun c => negb (is_resume c)) calls = true ->
  (latched r = true ->
   latched (run dev calls r) = true /\
   forall d now speed,
     Motor.move d dev now speed (motor (run dev calls r))
     = (false, motor (run dev calls r))) /\
  (forall a, a <> OBSTACLE_TOO_CLOSE ->
             active a (active_alerts (status r)) = true ->
             active a (active_alerts (status (run dev calls r))) = true).
Proof.
  intros N.
  assert (H : holding r (run dev calls r)).
  { revert r. induction calls as [|c calls IH]; intros r; [apply holding_refl|].
    cbn in N. apply andb_true_iff in N as [Nc Ncs]. apply negb_true_iff in Nc.
    cbn [run fold_left]. eapply holding_trans; [apply call_holds, Nc|].
    apply IH, Ncs. }
  destruct H as [L A]. split; [|exact A].
  intros L0. specialize (L L0). split; [exact L|].
  intros d now speed. unfold Motor.move. unfold latched, Motor.is_emergency_stopped in L.
  now rewrite L.
Qed.

(** X12: once [SENSOR_FAILURE] and [COMMUNICATION_LOST] are both active, a tick
    without a reading changes neither the safety status nor the motor
    controller: the failure is not raised again, whatever the level has
    become in the meantime. *)
Theorem repeated_sensor_loss_goes_unnoticed (t : Tick) (r : Robot) :
  active SENSOR_FAILURE (active_alerts (status r)) = true ->
  active COMMUNICATION_LOST (active_alerts (status r)) = true ->
  distance t = None ->
  status (tick dev t r) = status r /\
  motor (tick dev t r) = motor r /\
  is_safe_to_move (tick dev t r) = is_safe_to_move r.
Proof.
  intros SF CL D.
  destruct (tick_projections dev t r) as (St & Mo & _).
  assert (E : _check_communication (wall_at_check t)
                (_check_sensors dev (distance t) (wall_at_reading t) (loop_time t) r) = r).
  { unfold _check_sensors. rewrite D. cbv zeta.
    assert (E1 : (if sensor_manager (monitor r)
                  then _handle_sensor_failure dev (loop_time t) r else r) = r).
    { destruct (sensor_manager (monitor r)); [|reflexivity].
      unfold _handle_sensor_failure; cbv zeta. unfold status in SF. now rewrite SF. }
    rewrite E1. unfold _check_communication; cbv zeta. unfold status in CL.
    rewrite CL. cbn [negb]. now destruct (stale _ _). }
  rewrite E in St, Mo. unfold is_safe_to_move. rewrite St. auto.
Qed.

End Holding.

(** After the sensor fails once and recovers, the level is back at Safe with
    both failure alerts still active; a second loss of the sensor then
    leaves the level at Safe, tick after tick. *)
Lemma repeated_sensor_loss_goes_unnoticed_witness :
  let r := History.run History.mute
             [History.MonitorTick (Safety.mkTick None 1000 1000 1);
              History.MonitorTick (Safety.mkTick (Some 25%float) 1001 1001 2)]
             History.default_robot in
  let t := Safety.mkTick None 1010 1010 3 in
  Safety.level (Safety.status r) = Safety.SAFE /\
  Safety.level (Safety.status (Safety.tick History.mute t r)) = Safety.SAFE /\
  Safety.is_safe_to_move (Safety.tick History.mute t r) = true.
Proof.
  cbv zeta. split; [reflexivity|].
  destruct (repeated_sensor_loss_goes_unnoticed History.mute
              (Safety.mkTick None 1010 1010 3)
              (History.run History.mute
                 [History.MonitorTick (Safety.mkTick None 1000 1000 1);
                  History.MonitorTick (Safety.mkTick (Some 25%float) 1001 1001 2)]
                 History.default_robot)
              eq_refl eq_refl eq_refl) as (St & _ & Sf).
  split; [rewrite St; reflexivity|rewrite Sf; reflexivity].
Defined.

(** A latch set by a sensor failure survives readings, moves and stops. *)
Lemma only_a_resume_clears_witness :
  let r := Safety.tick History.mute (Safety.mkTick None 1000 1000 1) History.default_robot in
  let calls := [History.MonitorTick (Safety.mkTick (Some 25%float) 1001 1001 2);
                History.MotorMove Motor.FORWARD 3 (Some 40);
                History.MotorStop 4] in
  Safety.latched r = true /\
  Safety.latched (History.run History.obedient calls r) = true.
Proof.
  cbv zeta. split; [reflexivity|].
  destruct (only_a_resume_clears History.obedient
              [History.MonitorTick (Safety.mkTick (Some 25%float) 1001 1001 2);
               History.MotorMove Motor.FORWARD 3 (Some 40);
               History.MotorStop 4]
              (Safety.tick History.mute (Safety.mkTick None 1000 1000 1)
                 History.default_robot) eq_refl) as [L _].
  apply L. reflexivity.
Defined.

(** ** The manager's emergency stop, and the monitoring task *)

Section Orchestration.

Import Safety.

Variable dev : Motor.Device.


(** X14: the monitor's [initialize] starts the monitoring task exactly when both
    the motor controller and the sensor manager are set, and changes nothing
    otherwise.  Neither it nor [shutdown] touches the level, the alerts or
    the latch; [shutdown] marks monitoring inactive and sends STOP only when
    the motor controller is set and recorded as moving. *)
Theorem monitoring_starts_only_when_wired (now : float) (s : Supervision.Supervisor) :
  let r := Supervision.robot s in
  let up := Supervision.initialize s in
  let down := Supervision.shutdown dev now s in
  fst up = motor_controller (monitor r) && sensor_manager (monitor r) /\
  (fst up = false -> snd up = s) /\
  (fst up = true -> Supervision.task_running (snd up) = true) /\
  (level (status (Supervision.robot (snd up))) = level (status r) /\
   active_alerts (status (Supervision.robot (snd up))) = active_alerts (status r) /\
   motor (Supervision.robot (snd up)) = motor r) /\
  (level (status (Supervision.robot down)) = level (status r) /\
   active_alerts (status (Supervision.robot down)) = active_alerts (status r) /\
   latched (Supervision.robot down) = latched r) /\
  (is_monitoring_active (status (Supervision.robot down)) = false /\
   Supervision.task_running down = false /\
   Supervision._is_shutting_down down = true) /\
  motor (Supervision.robot down)
  = (if motor_controller (monitor r) && Motor.is_moving (Motor.motor_state (motor r))
     then snd (Motor.stop dev now (motor r)) else motor r).
Proof.
  cbv zeta. unfold Supervision.initialize, Supervision.start_monitoring.
  split; [now destruct (_ && _)|]. split; [now destruct (_ && _)|].
  split.
  { destruct (_ && _); cbn [fst snd]; [|discriminate].
    intros _. now destruct (Supervision.task_running s) eqn:T. }
  split.
  { destruct (_ && _); cbn [snd]; [|auto].
    destruct (Supervision.task_running s); cbn; auto. }
  unfold Supervision.shutdown, Supervision.stop_monitoring; cbv zeta.
  cbn [Supervision.robot Supervision.task_running Supervision._is_shutting_down].
  unfold Supervision.set_monitoring_active; cbv zeta.
  cbn [monitor motor with_status motor_controller].
  destruct (motor_controller (monitor (Supervision.robot s))
            && Motor.is_moving (Motor.motor_state (motor (Supervision.robot s))));
    cbn [Supervision.robot Supervision.task_running Supervision._is_shutting_down];
    unfold status, latched;
    cbn [monitor motor with_status safety_status level active_alerts is_monitoring_active];
    repeat split.
  unfold Motor.is_emergency_stopped. apply stop_latch.
Qed.

End Orchestration.


(** ** The pause between two passes of the monitoring loop *)

Section Pause.

Local Open Scope float_scope.

Lemma SFltb_false (x y : spec_float) :
  SFltb x y = false ->
  SFleb y x = true \/ SFeqb x x = false \/ SFeqb y y = false.
Proof.
  unfold SFltb, SFleb, SFeqb.
  destruct x as [sx|sx| |sx mx ex], y as [sy|sy| |sy my ey];
    cbn [SFcompare];
    try (destruct sx); try (destruct sy); cbn; auto; try discriminate.
  - destruct (Z.compare_spec ex ey), (Z.compare_spec ey ex); cbn; auto;
      try lia; try discriminate. subst.
    rewrite !Pos.compare_cont_spec; cbn.
    destruct (Pos.compare_spec mx my), (Pos.compare_spec my mx); cbn; auto;
      try lia; try discriminate.
  - destruct (Z.compare_spec ex ey), (Z.compare_spec ey ex); cbn; auto;
      try lia; try discriminate. subst.
    rewrite !Pos.compare_cont_spec; cbn.
    destruct (Pos.compare_spec mx my), (Pos.compare_spec my mx); cbn; auto;
      try lia; try discriminate.
Qed.

(** When [x < y] is false, [y <= x] holds unless one of them is a NaN. *)
Lemma ltb_false (x y : float) :
  (x <? y) = false ->
  (y <=? x) = true \/ is_nan x = true \/ is_nan y = true.
Proof.
  unfold is_nan. rewrite ltb_spec, leb_spec, !eqb_spec. intros H.
  destruct (SFltb_false _ _ H) as [L|[N|N]]; auto; rewrite N; auto.
Qed.

(** X15: the loop never sleeps less than its floor of 0.01 s, however long the
    pass took: the pause is at least 0.01, or the clock arithmetic gave a
    NaN. *)
Theorem sleep_time_has_a_floor (elapsed : float) :
  (Supervision.floor <=? Supervision.sleep_time elapsed) = true \/
  is_nan (Supervision.sleep_time elapsed) = true.
Proof.
  unfold Supervision.sleep_time, Num.max_float.
  destruct (Supervision.period - elapsed <? Supervision.floor) eqn:E.
  - left. reflexivity.
  - destruct (ltb_false _ _ E) as [L|[N|N]]; auto. discriminate N.
Qed.

End Pause.

(** ** Lost communication, and the way back from an emergency *)

Section Recovery.

Import Safety History.
Local Open Scope list_scope.

Variable dev : Motor.Device.

(** [_check_sensors] without a reading leaves the time of the last reading
    and the [COMMUNICATION_LOST] alert as they were. *)
Lemma check_sensors_without_reading (wall now : float) (r : Robot) :
  let r1 := _check_sensors dev None wall now r in
  last_sensor_reading (status r1) = last_sensor_reading (status r) /\
  active COMMUNICATION_LOST (active_alerts (status r1))
  = active COMMUNICATION_LOST (active_alerts (status r)).
Proof.
  cbv zeta. unfold _check_sensors.
  destruct (sensor_manager (monitor r)); [|auto].
  unfold _handle_sensor_failure; cbv zeta.
  destruct (negb _); [|auto].
  unfold status. cbn [monitor with_status safety_status with_level with_alerts
                      last_sensor_reading active_alerts].
  split; [reflexivity|]. rewrite active_app. cbn. apply orb_false_r.
Qed.

(** X16: a tick without a reading, checked more than 2 s after the last reading,
    ends with [COMMUNICATION_LOST] active; when the alert is new the level
    is set to Danger, whatever it was, Emergency included. *)
Theorem silence_raises_communication_lost (t : Tick) (r : Robot) :
  distance t = None ->
  stale (wall_at_check t) (last_sensor_reading (status r)) = true ->
  active COMMUNICATION_LOST (active_alerts (status (tick dev t r))) = true /\
  (active COMMUNICATION_LOST (active_alerts (status r)) = false ->
   level (status (tick dev t r)) = DANGER /\ is_safe_to_move (tick dev t r) = false).
Proof.
  intros D S.
  destruct (tick_projections dev t r) as (St & _ & _). rewrite D in St.
  destruct (check_sensors_without_reading (wall_at_reading t) (loop_time t) r) as [T A].
  set (r1 := _check_sensors dev None (wall_at_reading t) (loop_time t) r) in *.
  unfold is_safe_to_move. rewrite St.
  unfold _check_communication; cbv zeta. unfold status in T, A, S |- *.
  rewrite T, S, A.
  destruct (active COMMUNICATION_LOST (active_alerts (safety_status (monitor r)))) eqn:C;
    cbn [negb].
  - split; [now rewrite A|discriminate].
  - cbn [monitor with_status safety_status with_level with_alerts level active_alerts].
    split; [|intros _; split; reflexivity].
    now rewrite active_app, orb_true_r.
Qed.

(** X17: after any emergency trigger, a [resume_after_emergency] that is not
    refused (a reading above [min_obstacle_distance], or no sensor manager
    at all) returns [True], clears every alert, sets the level to Safe and
    releases the latch of the attached motor controller; the count of
    emergency stops is kept, one more than before the trigger. *)
Theorem resume_undoes_a_trigger (now : float) (alert : SafetyAlert)
    (reading : option float) (r : Robot) :
  motor_controller (monitor r) = true ->
  sensor_manager (monitor r) = false \/
  (exists d, reading = Some d /\ PrimFloat.leb d (min_obstacle_distance (monitor r)) = false) ->
  let stopped := snd (trigger_emergency_stop dev now alert r) in
  let out := resume_after_emergency reading stopped in
  (level (status stopped) = EMERGENCY /\ latched stopped = true) /\
  fst out = true /\
  level (status (snd out)) = SAFE /\
  active_alerts (status (snd out)) = [] /\
  latched (snd out) = false /\
  is_safe_to_move (snd out) = true /\
  emergency_stops_count (status (snd out)) = (emergency_stops_count (status r) + 1)%Z.
Proof.
  intros W Ok. cbv zeta.
  destruct (trigger_establishes dev now alert r) as (L & _ & _ & M & Sn & La & _).
  destruct (trigger_books dev now alert r) as [_ C].
  set (stopped := snd (trigger_emergency_stop dev now alert r)) in *.
  split; [split; [exact L|now apply La]|].
  assert (Thr : min_obstacle_distance (monitor stopped) = min_obstacle_distance (monitor r))
    by reflexivity.
  unfold resume_after_emergency; cbv zeta.
  assert (R : sensor_manager (monitor stopped) &&
              match reading with
              | Some d => PrimFloat.leb d (min_obstacle_distance (monitor stopped))
              | None => true
              end = false).
  { rewrite Sn, Thr. destruct Ok as [->|(d & -> & ->)]; [reflexivity|apply andb_false_r]. }
  rewrite R, M, W. unfold is_safe_to_move, latched, status.
  cbn [fst snd monitor motor with_status safety_status with_level with_alerts level
       active_alerts emergency_stops_count].
  repeat split; auto.
Qed.

End Recovery.

(** The first tick without a reading on a fresh monitor: the last reading is
    at time 0, so communication counts as lost at once. *)
Lemma silence_raises_communication_lost_witness :
  let t := Safety.mkTick None 1000 1000 1 in
  let r' := Safety.tick History.mute t History.default_robot in
  Safety.stale 1000 (Safety.last_sensor_reading (Safety.status History.default_robot)) = true /\
  Safety.active Safety.COMMUNICATION_LOST (Safety.active_alerts (Safety.status r')) = true /\
  Safety.level (Safety.status r') = Safety.DANGER.
Proof.
  cbv zeta. split; [reflexivity|].
  destruct (silence_raises_communication_lost History.mute
              (Safety.mkTick None 1000 1000 1) History.default_robot eq_refl eq_refl)
    as [A L].
  split; [exact A|]. apply L. reflexivity.
Defined.

(** A manual stop, then a resume with the way clear at 25 cm. *)
Lemma resume_undoes_a_trigger_witness :
  let stopped := snd (Safety.trigger_emergency_stop History.mute 1
                        Safety.MANUAL_EMERGENCY History.default_robot) in
  let out := Safety.resume_after_emergency (Some 25%float) stopped in
  Safety.latched stopped = true /\
  fst out = true /\ Safety.latched (snd out) = false.
Proof.
  cbv zeta.
  destruct (resume_undoes_a_trigger History.mute 1 Safety.MANUAL_EMERGENCY
              (Some 25%float) History.default_robot eq_refl
              (or_intror (ex_intro _ 25%float (conj eq_refl eq_refl))))
    as ((_ & L) & Ok & _ & _ & U & _).
  split; [exact L|]. split; [exact Ok|exact U].
Defined.

(** ** Concrete runs of the motor and LED controllers *)

Section MoreRuns.

Import Motor Lifecycle.

(** A device that answers PONG to everything. *)
Lemma initialize_handshake_witness :
  let dev : Device := fun _ _ => Line "PONG" in
  let out := initialize dev true (Motor.init true 100 40) in
  fst out = true /\ written (snd out) = ["PING"; "STOP"; "SET_SPEED:40"].
Proof.
  cbv zeta.
  assert (W : forall (n : nat) (c : string),
                (fun (_ : nat) (_ : string) => Line "PONG") n c <> WriteError)
    by (intros n c H; discriminate H).
  destruct (initialize_handshake (fun _ _ => Line "PONG") (Motor.init true 100 40)
              eq_refl eq_refl W) as (Ok & Wr & _).
  split; [exact Ok|exact Wr].
Defined.

(** An initialised controller, shut down, then asked to move. *)
Lemma nothing_is_sent_after_shutdown_witness :
  let mc := snd (initialize History.obedient true (Motor.init true 100 40)) in
  let mc' := shutdown History.obedient 1 mc in
  connection_open mc = true /\
  connection_open mc' = false /\
  fst (move FORWARD History.obedient 2 (Some 40) mc') = false.
Proof.
  cbv zeta. split; [reflexivity|].
  destruct (nothing_is_sent_after_shutdown History.obedient History.obedient 1 2
              (snd (initialize History.obedient true (Motor.init true 100 40))) eq_refl)
    as (C & M & _).
  split; [exact C|]. apply (M FORWARD (Some 40)).
Defined.

(** A forward move at 60 that the device does not answer: the speed is
    recorded, the direction is not. *)
Lemma unacknowledged_move_keeps_the_direction_witness :
  let mc := mkMotorController (mkMotorState STOP 0 false 0) 100 40 false true true [] 0%nat in
  let out := move FORWARD History.mute 1 (Some 60) mc in
  fst out = false /\
  motor_state (snd out) = mkMotorState STOP 60 false 0.
Proof.
  cbv zeta.
  destruct (unacknowledged_move_keeps_the_direction History.mute FORWARD 1 (Some 60)
              (mkMotorController (mkMotorState STOP 0 false 0) 100 40 false true true []
                 0%nat) eq_refl) as (_ & _ & _ & F).
  split; [reflexivity|]. apply F. reflexivity.
Defined.

(** A left turn in simulation mode. *)
Lemma simulation_mode_always_acknowledges_witness :
  let mc := Motor.init false 100 40 in
  move TURN_LEFT History.mute 1 None mc
  = (true, set_motor_state (mkMotorState TURN_LEFT 40 true 1) mc).
Proof.
  cbv zeta.
  destruct (simulation_mode_always_acknowledges History.mute 1 (Motor.init false 100 40)
              eq_refl) as (M & _).
  apply (M TURN_LEFT None). reflexivity.
Defined.

(** Playful at multiplier 1.5 on base speed 40: speed 60. *)
Lemma emotional_speed_is_clamped_witness :
  let emotions := [("playful", Some (FloatMultiplier 1.5))] in
  let mc := Motor.init false 100 40 in
  exists mc',
    move_with_emotion History.mute 1 false emotions FORWARD "playful" mc = Some (true, mc') /\
    Motor.speed (motor_state mc') = 60.
Proof.
  cbv zeta.
  set (mc' := set_motor_state (mkMotorState FORWARD 60 true 1) (Motor.init false 100 40)).
  assert (E : move_with_emotion History.mute 1 false
                [("playful", Some (FloatMultiplier 1.5))] FORWARD "playful"
                (Motor.init false 100 40) = Some (true, mc')) by reflexivity.
  exists mc'. split; [exact E|].
  destruct (emotional_speed_is_clamped History.mute 1 _ FORWARD "playful" _ true mc' E)
    as ((s & Es & _ & R & _) & _).
  reflexivity.
Defined.

(** An LED controller attached to a motor controller in simulation mode. *)
Lemma led_fails_in_simulation_mode_witness :
  let b := Led.mkBoard (Led.set_arduino_serial Led.init) (Motor.init false 100 40) in
  fst (Led.set_expression History.obedient Led.HAPPY b) = false /\
  fst (Led.initialize History.obedient false b) = false.
Proof.
  cbv zeta.
  destruct (led_fails_in_simulation_mode History.obedient
              (Led.mkBoard (Led.set_arduino_serial Led.init) (Motor.init false 100 40))
              eq_refl) as (E & I & _).
  split; [apply (E Led.HAPPY)|apply (I false)].
Defined.

End MoreRuns.

(** ** Calls served one at a time *)

Section InTurn.

Import Channel Turns.
Local Open Scope list_scope.

Lemma resume_nth_at (patience : nat) (done : list Task) (t : Task) (rest : list Task)
    (wire inbox : list string) :
  resume_nth patience (List.length done) (done ++ t :: rest) wire inbox
  = (let '(t', wire', inbox') := resume patience t wire inbox in
     (done ++ t' :: rest, wire', inbox')).
Proof.
  induction done as [|d done IH]; cbn [List.length app resume_nth].
  - reflexivity.
  - rewrite IH. now destruct (resume patience t wire inbox) as [[t' wire'] inbox'].
Qed.

Lemma exec_cons (patience : nat) (e : Event) (es : list Event) (w : World) :
  exec patience (e :: es) w = exec patience es (step patience e w).
Proof. reflexivity. Qed.

(** A call that has not started is run: its command goes out and, the
    device not having answered yet, it waits. *)
Lemma step_starts (patience : nat) (done : list Task) (q : Request) (rest : list Task)
    (wire : list string) :
  expect_response q = true ->
  step (S patience) (Resume (List.length done))
    (mkWorld (done ++ mkTask q Submitted :: rest) wire [])
  = mkWorld (done ++ mkTask q (Polling patience) :: rest) (wire ++ [command q]) [].
Proof.
  intros E. cbn [step tasks written in_waiting]. rewrite resume_nth_at.
  unfold resume. cbn [phase request poll]. now rewrite E.
Qed.

(** A waiting call is run after its answer has arrived: it returns with it. *)
Lemma step_returns (patience n : nat) (done : list Task) (q : Request) (rest : list Task)
    (wire : list string) (a : string) :
  a <> EmptyString ->
  step patience (Resume (List.length done))
    (mkWorld (done ++ mkTask q (Polling n) :: rest) wire [a])
  = mkWorld (done ++ mkTask q (Returned (Some a)) :: rest) wire [].
Proof.
  intros N. cbn [step tasks written in_waiting]. rewrite resume_nth_at.
  unfold resume. cbn [phase request poll].
  assert (E : String.eqb a EmptyString = false) by now apply String.eqb_neq.
  now rewrite E.
Qed.

Lemma served_from (patience : nat) (requests : list Request) :
  forall (answers : list string) (done : list Task) (wire : list string),
    List.length answers = List.length requests ->
    Forall (fun q => expect_response q = true) requests ->
    Forall (fun a => a <> EmptyString) answers ->
    exec (S patience) (one_at_a_time (List.length done) answers)
      (mkWorld (done ++ map (fun q => mkTask q Submitted) requests) wire [])
    = mkWorld (done ++ map answered (combine requests answers))
        (wire ++ map command requests) [].
Proof.
  induction requests as [|q qs IH]; intros answers done wire Len Exp Non.
  - destruct answers; [|discriminate Len]. cbn. now rewrite !app_nil_r.
  - destruct answers as [|a answers]; [discriminate Len|].
    inversion Exp as [|? ? Eq Exp']; subst. inversion Non as [|? ? Na Non']; subst.
    cbn [one_at_a_time map combine].
    rewrite exec_cons, step_starts by exact Eq.
    rewrite exec_cons. cbn [step tasks written in_waiting app].
    rewrite exec_cons, step_returns by exact Na.
    replace (done ++ mkTask q (Returned (Some a)) :: map (fun q0 => mkTask q0 Submitted) qs)
      with ((done ++ [mkTask q (Returned (Some a))])
            ++ map (fun q0 => mkTask q0 Submitted) qs)
      by now rewrite <- app_assoc.
    replace (S (List.length done))
      with (List.length (done ++ [mkTask q (Returned (Some a))]))
      by (rewrite length_app; cbn; lia).
    rewrite IH by (auto; now injection Len).
    rewrite <- !app_assoc. reflexivity.
Qed.

(** X18: when every call waits for a response and the calls are served one
    at a time (each is run, the device answers with a non-empty line, the
    call is run again before the next one starts), every caller gets the
    answer to its own command, the commands are on the wire in submission
    order, and nothing is left in flight or unread. *)
Theorem served_one_at_a_time (patience : nat) (requests : list Request)
    (answers : list string) :
  List.length answers = List.length requests ->
  Forall (fun q => expect_response q = true) requests ->
  Forall (fun a => a <> EmptyString) answers ->
  let w := exec (S patience) (one_at_a_time 0 answers) (submit requests) in
  tasks w = map answered (combine requests answers) /\
  written w = map command requests /\
  in_waiting w = [] /\
  in_flight w = 0%nat.
Proof.
  intros Len Exp Non. cbv zeta. unfold submit.
  pose proof (served_from patience requests answers [] [] Len Exp Non) as E.
  cbn [List.length app] in E. rewrite E. cbn [tasks written in_waiting].
  repeat split. unfold in_flight. cbn [tasks]. clear E.
  induction (combine requests answers) as [|qa l IH]; [reflexivity|exact IH].
Qed.


End InTurn.

(** The move and the sensor read of the two-in-flight run, one after the
    other: each gets its own answer. *)
Lemma served_one_at_a_time_witness :
  Channel.responses
    (Channel.exec 2000
       (Turns.one_at_a_time 0 [Channel.move_answer; Channel.read_answer])
       (Channel.submit Channel.move_and_read))
  = [(Channel.MotorCaller, Channel.Returned (Some Channel.move_answer));
     (Channel.SensorCaller, Channel.Returned (Some Channel.read_answer))].
Proof.
  assert (Non : Forall (fun a => a <> EmptyString)
                  [Channel.move_answer; Channel.read_answer]).
  { repeat constructor; intros H; discriminate H. }
  assert (Exp : Forall (fun q => Channel.expect_response q = true)
                  Channel.move_and_read).
  { repeat constructor. }
  destruct (served_one_at_a_time 1999 Channel.move_and_read
              [Channel.move_answer; Channel.read_answer] eq_refl Exp Non)
    as (T & _).
  unfold Channel.responses. rewrite T. reflexivity.
Defined.

